(** * The shape model of [examples/shapes/implementations/python/__init__.py]

    A shallow embedding of the three concrete shape classes ([Circle],
    [Rectangle], [Triangle]) together with the part of the Python run time
    they rely on: dynamically typed values, the numeric tower ([bool] below
    [int], [int] converted to [float], [float] converted to [complex]),
    binary64 arithmetic, exceptions, and instances whose attributes live in
    a dictionary that method bodies read through [self].

    Besides the three classes the development covers the abstract classes
    [Shape] and [Polygon] with the resolution of methods along the
    hierarchy, the pytest suites and [conftest.py] files of the shapes,
    and the 16-bit calculator of
    [examples/calculator/generated/pytest/test_16_bit.py]. *)

From Stdlib Require Import ZArith Bool Lia.
From Stdlib Require Import Floats.SpecFloat.
From stdpp Require Import base gmap strings.

Local Open Scope Z_scope.

(** ** Exceptions and outcomes *)

Inductive exn :=
  | TypeError
  | ValueError
  | OverflowError
  | ZeroDivisionError
  | AttributeError.

Inductive result (A : Type) :=
  | Ok (a : A)
  | Raise (e : exn).
Arguments Ok {A} a.
Arguments Raise {A} e.

Definition result_bind {A B} (r : result A) (k : A -> result B) : result B :=
  match r with
  | Ok a => k a
  | Raise e => Raise e
  end.

Definition returns {A} (r : result A) : Prop := exists a, r = Ok a.

(** ** Binary64 floating point (the representation of Python's [float]) *)

Module F64.
Definition prec : Z := 53.
Definition emax : Z := 1024.

Definition add := SFadd prec emax.
Definition sub := SFsub prec emax.
Definition mul := SFmul prec emax.
Definition div := SFdiv prec emax.
Definition sqrt := SFsqrt prec emax.
Definition eqb := SFeqb.
Definition ltb := SFltb.
Definition leb := SFleb.
Definition opp := SFopp.

Definition zero : spec_float := S754_zero false.

(** The double nearest to pi, 0x1.921fb54442d18p+1. *)
Definition pi : spec_float := S754_finite false 7074237752028440 (-51).

Definition is_nan (x : spec_float) : bool :=
  match x with S754_nan => true | _ => false end.

Definition is_zero (x : spec_float) : bool :=
  match x with S754_zero _ => true | _ => false end.

(** [of_Z n] is the double nearest to [n] (ties to even); it is an
    infinity exactly when [n] is out of the range of a double. *)
Definition of_Z (n : Z) : spec_float := binary_normalize prec emax n 0 false.

(** The correctly rounded quotient of two integers, [b] not zero. *)
Definition of_quotient (a b : Z) : spec_float :=
  let negate := xorb (a <? 0) (b <? 0) in
  if a =? 0 then S754_zero negate
  else
    let '(q, e, l) := SFdiv_core_binary prec emax (Z.abs a) 0 (Z.abs b) 0 in
    binary_round_aux prec emax negate q e l.

(** Exact comparison of a double with an integer, without rounding;
    [None] when the double is a NaN. *)
Definition compare_Z (x : spec_float) (n : Z) : option comparison :=
  match x with
  | S754_nan => None
  | S754_infinity s => Some (if s then Lt else Gt)
  | S754_zero _ => Some (0 ?= n)
  | S754_finite s m e =>
      let sm := cond_Zopp s (Zpos m) in
      Some (if 0 <=? e then sm * 2 ^ e ?= n else sm ?= n * 2 ^ (- e))
  end.

Definition eqb_Z (x : spec_float) (n : Z) : bool :=
  match compare_Z x n with
  | Some Eq => true
  | _ => false
  end.
End F64.

(** ** Values *)

Inductive value :=
  | VNone
  | VBool (b : bool)
  | VInt (n : Z)
  | VFloat (f : spec_float)
  | VComplex (re im : spec_float)
  | VStr (s : string).

Inductive py_type := NoneType | bool_t | int_t | float_t | complex_t | str_t.

Definition py_type_eqb (a b : py_type) : bool :=
  match a, b with
  | NoneType, NoneType | bool_t, bool_t | int_t, int_t
  | float_t, float_t | complex_t, complex_t | str_t, str_t => true
  | _, _ => false
  end.

Definition type_of (v : value) : py_type :=
  match v with
  | VNone => NoneType
  | VBool _ => bool_t
  | VInt _ => int_t
  | VFloat _ => float_t
  | VComplex _ _ => complex_t
  | VStr _ => str_t
  end.

(** [bool] is a subclass of [int]; the other built-in types here are
    unrelated. *)
Definition issubclass (a b : py_type) : bool :=
  py_type_eqb a b ||
  match a, b with
  | bool_t, int_t => true
  | _, _ => false
  end.

(** [isinstance(v, (t1, ..., tn))]. *)
Definition isinstance (v : value) (ts : list py_type) : bool :=
  existsb (issubclass (type_of v)) ts.

(** ** The numeric tower *)

Inductive num :=
  | NInt (n : Z)
  | NFloat (f : spec_float)
  | NComplex (re im : spec_float).

Definition as_num (v : value) : option num :=
  match v with
  | VBool b => Some (NInt (Z.b2z b))
  | VInt n => Some (NInt n)
  | VFloat f => Some (NFloat f)
  | VComplex re im => Some (NComplex re im)
  | VNone | VStr _ => None
  end.

(** [PyLong_AsDouble]: an [int] too large for a double raises
    [OverflowError] ("int too large to convert to float"). *)
Definition float_of_int (n : Z) : result spec_float :=
  match F64.of_Z n with
  | S754_infinity _ => Raise OverflowError
  | f => Ok f
  end.

(** Conversion of a real operand to [float] for mixed arithmetic. *)
Definition to_float (x : num) : result spec_float :=
  match x with
  | NInt n => float_of_int n
  | NFloat f => Ok f
  | NComplex _ _ => Raise TypeError
  end.

(** Conversion of an operand to [complex] for mixed arithmetic. *)
Definition to_complex (x : num) : result (spec_float * spec_float) :=
  match x with
  | NInt n => result_bind (float_of_int n) (fun f => Ok (f, F64.zero))
  | NFloat f => Ok (f, F64.zero)
  | NComplex re im => Ok (re, im)
  end.

(** Binary arithmetic follows the usual coercion: two ints stay ints, a
    complex operand makes both complex, otherwise both become floats. *)
Definition num_binop
    (iop : Z -> Z -> result value)
    (fop : spec_float -> spec_float -> result value)
    (cop : spec_float * spec_float -> spec_float * spec_float -> result value)
    (x y : num) : result value :=
  match x, y with
  | NInt a, NInt b => iop a b
  | NComplex _ _, _ | _, NComplex _ _ =>
      result_bind (to_complex x) (fun a =>
      result_bind (to_complex y) (fun b => cop a b))
  | _, _ =>
      result_bind (to_float x) (fun a =>
      result_bind (to_float y) (fun b => fop a b))
  end.

(** Complex arithmetic as in CPython's [complexobject.c], where a real
    operand is first converted to a complex number with a zero imaginary
    part.  The properties below depend on which complex operations raise,
    not on the components they compute. *)
Module Cx.
Definition t : Type := spec_float * spec_float.

Definition sum (a b : t) : t :=
  (F64.add (fst a) (fst b), F64.add (snd a) (snd b)).

Definition diff (a b : t) : t :=
  (F64.sub (fst a) (fst b), F64.sub (snd a) (snd b)).

Definition prod (a b : t) : t :=
  (F64.sub (F64.mul (fst a) (fst b)) (F64.mul (snd a) (snd b)),
   F64.add (F64.mul (fst a) (snd b)) (F64.mul (snd a) (fst b))).

Definition fabs (x : spec_float) : spec_float :=
  if F64.ltb x F64.zero then F64.opp x else x.

(** [None] stands for the division by zero that [complex_div] reports. *)
Definition quot (a b : t) : option t :=
  let abs_breal := fabs (fst b) in
  let abs_bimag := fabs (snd b) in
  if F64.leb abs_bimag abs_breal then
    if F64.eqb abs_breal F64.zero then None
    else
      let ratio := F64.div (snd b) (fst b) in
      let denom := F64.add (fst b) (F64.mul (snd b) ratio) in
      Some (F64.div (F64.add (fst a) (F64.mul (snd a) ratio)) denom,
            F64.div (F64.sub (snd a) (F64.mul (fst a) ratio)) denom)
  else if F64.leb abs_breal abs_bimag then
    let ratio := F64.div (fst b) (snd b) in
    let denom := F64.add (F64.mul (fst b) ratio) (snd b) in
    Some (F64.div (F64.add (F64.mul (fst a) ratio) (snd a)) denom,
          F64.div (F64.sub (F64.mul (snd a) ratio) (fst a)) denom)
  else Some (S754_nan, S754_nan).

Definition eqb (a b : t) : bool :=
  F64.eqb (fst a) (fst b) && F64.eqb (snd a) (snd b).
End Cx.

Definition VCx (c : Cx.t) : value := VComplex (fst c) (snd c).

(** ** Operators *)

(** [sys.maxsize] on a 64-bit build, the bound of a sequence repetition
    count. *)
Definition maxsize : Z := 2 ^ 63 - 1.

Fixpoint str_repeat_nat (s : string) (n : nat) : string :=
  match n with
  | O => EmptyString
  | S n' => String.append s (str_repeat_nat s n')
  end.

(** [s * n] for a string [s].  The count has to fit an index and the
    length of the result has to fit one too; running out of memory for a
    result within these bounds is not modelled. *)
Definition str_repeat (s : string) (n : Z) : result value :=
  if (n <? - maxsize - 1) || (maxsize <? n) then Raise OverflowError
  else if n <=? 0 then Ok (VStr EmptyString)
  else if maxsize <? Z.of_nat (String.length s) * n then Raise OverflowError
  else Ok (VStr (str_repeat_nat s (Z.to_nat n))).

Definition as_int (v : value) : option Z :=
  match v with
  | VBool b => Some (Z.b2z b)
  | VInt n => Some n
  | _ => None
  end.

(** [x + y] *)
Definition py_add (x y : value) : result value :=
  match as_num x, as_num y with
  | Some a, Some b =>
      num_binop (fun m n => Ok (VInt (m + n)))
                (fun f g => Ok (VFloat (F64.add f g)))
                (fun c d => Ok (VCx (Cx.sum c d))) a b
  | _, _ =>
      match x, y with
      | VStr s, VStr t => Ok (VStr (String.append s t))
      | _, _ => Raise TypeError
      end
  end.

(** [x - y] *)
Definition py_sub (x y : value) : result value :=
  match as_num x, as_num y with
  | Some a, Some b =>
      num_binop (fun m n => Ok (VInt (m - n)))
                (fun f g => Ok (VFloat (F64.sub f g)))
                (fun c d => Ok (VCx (Cx.diff c d))) a b
  | _, _ => Raise TypeError
  end.

(** [x * y] *)
Definition py_mul (x y : value) : result value :=
  match as_num x, as_num y with
  | Some a, Some b =>
      num_binop (fun m n => Ok (VInt (m * n)))
                (fun f g => Ok (VFloat (F64.mul f g)))
                (fun c d => Ok (VCx (Cx.prod c d))) a b
  | _, _ =>
      match x, as_int y, as_int x, y with
      | VStr s, Some n, _, _ => str_repeat s n
      | _, _, Some n, VStr s => str_repeat s n
      | _, _, _, _ => Raise TypeError
      end
  end.

(** [x / y] (true division) *)
Definition py_truediv (x y : value) : result value :=
  match as_num x, as_num y with
  | Some a, Some b =>
      num_binop
        (fun m n =>
           if n =? 0 then Raise ZeroDivisionError
           else match F64.of_quotient m n with
                | S754_infinity _ => Raise OverflowError
                | f => Ok (VFloat f)
                end)
        (fun f g =>
           if F64.is_zero g then Raise ZeroDivisionError
           else Ok (VFloat (F64.div f g)))
        (fun c d =>
           match Cx.quot c d with
           | None => Raise ZeroDivisionError
           | Some q => Ok (VCx q)
           end) a b
  | _, _ => Raise TypeError
  end.

(** [x == y] on the built-in types of the model.  An [int] and a [float]
    are compared exactly, without converting the [int]. *)
Definition num_eqb (x y : num) : bool :=
  match x, y with
  | NInt a, NInt b => a =? b
  | NInt a, NFloat f | NFloat f, NInt a => F64.eqb_Z f a
  | NFloat f, NFloat g => F64.eqb f g
  | NComplex re im, NInt a | NInt a, NComplex re im =>
      F64.eqb im F64.zero && F64.eqb_Z re a
  | NComplex re im, NFloat f | NFloat f, NComplex re im =>
      F64.eqb re f && F64.eqb im F64.zero
  | NComplex re im, NComplex re' im' => Cx.eqb (re, im) (re', im')
  end.

Definition py_eq (x y : value) : bool :=
  match as_num x, as_num y with
  | Some a, Some b => num_eqb a b
  | _, _ =>
      match x, y with
      | VStr s, VStr t => String.eqb s t
      | VNone, VNone => true
      | _, _ => false
      end
  end.

(** [x != y] is the negation of [x == y] for these types. *)
Definition py_ne (x y : value) : bool := negb (py_eq x y).

(** [x >= y]: real numbers are ordered exactly, strings by their
    characters; any other pair of operands is a [TypeError]. *)
Definition py_ge (x y : value) : result bool :=
  match as_num x, as_num y with
  | Some (NInt a), Some (NInt b) => Ok (b <=? a)
  | Some (NFloat f), Some (NFloat g) => Ok (F64.leb g f)
  | Some (NFloat f), Some (NInt b) =>
      Ok (match F64.compare_Z f b with
          | Some (Gt | Eq) => true
          | _ => false
          end)
  | Some (NInt a), Some (NFloat g) =>
      Ok (match F64.compare_Z g a with
          | Some (Lt | Eq) => true
          | _ => false
          end)
  | _, _ =>
      match x, y with
      | VStr s, VStr t =>
          Ok (match String.compare s t with Lt => false | _ => true end)
      | _, _ => Raise TypeError
      end
  end.

(** ** The [math] module *)

Module math.
(** [math.pi] *)
Definition pi : value := VFloat F64.pi.

(** [PyFloat_AsDouble]: the argument of a [math] function as a double. *)
Definition as_double (v : value) : result spec_float :=
  match v with
  | VFloat f => Ok f
  | VInt n => float_of_int n
  | VBool b => float_of_int (Z.b2z b)
  | VNone | VComplex _ _ | VStr _ => Raise TypeError
  end.

(** [math.sqrt]: a NaN result for an argument that is not a NaN is
    reported as [ValueError] ("math domain error"). *)
Definition sqrt (v : value) : result value :=
  result_bind (as_double v) (fun x =>
    let r := F64.sqrt x in
    if F64.is_nan r && negb (F64.is_nan x) then Raise ValueError
    else Ok (VFloat r)).
End math.

(** ** Instances and method bodies *)

Inductive class_name := Circle_cls | Rectangle_cls | Triangle_cls.

(** An instance: its class and its attribute dictionary ([__dict__]). *)
Record object := Object {
  ob_type : class_name;
  ob_dict : gmap string value
}.

(** A method body runs against [self]: it yields an outcome and the
    instance as the body leaves it. *)
Definition method (A : Type) : Type := object -> result A * object.

Definition ret {A} (a : A) : method A := fun self => (Ok a, self).

Definition bind {A B} (m : method A) (k : A -> method B) : method B :=
  fun self =>
    match m self with
    | (Ok a, self') => k a self'
    | (Raise e, self') => (Raise e, self')
    end.

(** The outcome of an expression that does not touch [self]. *)
Definition eval {A} (r : result A) : method A := fun self => (r, self).

Definition throw {A} (e : exn) : method A := eval (Raise e).

(** [self.name] *)
Definition getattr (name : string) : method value :=
  fun self =>
    (match ob_dict self !! name with
     | Some v => Ok v
     | None => Raise AttributeError
     end, self).

(** [self.name = v] *)
Definition setattr (name : string) (v : value) : method unit :=
  fun self =>
    (Ok tt, {| ob_type := ob_type self; ob_dict := <[name := v]> (ob_dict self) |}).

Declare Scope method_scope.
Delimit Scope method_scope with method.
Notation "x <- m ;; k" := (bind m (fun x => k))
  (at level 100, m at level 99, right associativity) : method_scope.
Notation "m ;;; k" := (bind m (fun _ => k))
  (at level 100, k at level 200, right associativity) : method_scope.
Local Open Scope method_scope.

(** [cls(args)]: a fresh instance of [cls] on which [__init__] has run. *)
Definition instantiate (cls : class_name) (init : method unit) : result object :=
  match init {| ob_type := cls; ob_dict := ∅ |} with
  | (Ok _, self) => Ok self
  | (Raise e, _) => Raise e
  end.

(** The outcome of calling a method on an instance, and the instance
    after the call. *)
Definition call {A} (m : method A) (self : object) : result A := fst (m self).
Definition after {A} (m : method A) (self : object) : object := snd (m self).

(** ** class Circle(Shape) *)

Module Circle.
Definition __init__ (radius : value) : method unit :=
  if negb (isinstance radius [int_t; float_t; complex_t]) then
    throw ValueError
  else
    setattr "radius" radius.

Definition new (radius : value) : result object :=
  instantiate Circle_cls (__init__ radius).

Definition area : method value :=
  r1 <- getattr "radius" ;;
  t <- eval (py_mul math.pi r1) ;;
  r2 <- getattr "radius" ;;
  eval (py_mul t r2).

Definition perimeter : method value :=
  t <- eval (py_mul (VInt 2) math.pi) ;;
  r <- getattr "radius" ;;
  eval (py_mul t r).

Definition diameter : method value :=
  r <- getattr "radius" ;;
  eval (py_mul (VInt 2) r).
End Circle.

(** ** class Rectangle(Polygon) *)

Module Rectangle.
Definition __init__ (width height : value) : method unit :=
  setattr "width" width ;;;
  setattr "height" height.

Definition new (width height : value) : result object :=
  instantiate Rectangle_cls (__init__ width height).

Definition area : method value :=
  w <- getattr "width" ;;
  h <- getattr "height" ;;
  eval (py_mul w h).

Definition perimeter : method value :=
  w <- getattr "width" ;;
  h <- getattr "height" ;;
  t <- eval (py_add w h) ;;
  eval (py_mul (VInt 2) t).

Definition edge_count : method value := ret (VInt 4).

Definition vertex_count : method value := ret (VInt 4).

Definition is_square : method value :=
  w <- getattr "width" ;;
  h <- getattr "height" ;;
  ret (VBool (py_eq w h)).
End Rectangle.

(** ** class Triangle(Polygon) *)

Module Triangle.
Definition __init__ (side_a side_b side_c : value) : method unit :=
  setattr "side_a" side_a ;;;
  setattr "side_b" side_b ;;;
  setattr "side_c" side_c.

Definition new (side_a side_b side_c : value) : result object :=
  instantiate Triangle_cls (__init__ side_a side_b side_c).

Definition area : method value :=
  a <- getattr "side_a" ;;
  b <- getattr "side_b" ;;
  ab <- eval (py_add a b) ;;
  c <- getattr "side_c" ;;
  abc <- eval (py_add ab c) ;;
  s <- eval (py_truediv abc (VInt 2)) ;;
  a' <- getattr "side_a" ;;
  sa <- eval (py_sub s a') ;;
  p1 <- eval (py_mul s sa) ;;
  b' <- getattr "side_b" ;;
  sb <- eval (py_sub s b') ;;
  p2 <- eval (py_mul p1 sb) ;;
  c' <- getattr "side_c" ;;
  sc <- eval (py_sub s c') ;;
  p3 <- eval (py_mul p2 sc) ;;
  eval (math.sqrt p3).

Definition perimeter : method value :=
  a <- getattr "side_a" ;;
  b <- getattr "side_b" ;;
  ab <- eval (py_add a b) ;;
  c <- getattr "side_c" ;;
  eval (py_add ab c).

Definition edge_count : method value := ret (VInt 3).

Definition vertex_count : method value := ret (VInt 3).
End Triangle.

(** ** The abstract capabilities

    [Shape] declares [area] and [perimeter]; [Polygon(Shape)] adds
    [edge_count] and [vertex_count].  A call through the capability
    dispatches on the class of the instance; [Circle] has no polygon
    methods, so looking one up on a circle is an [AttributeError]. *)

Definition is_polygon (cls : class_name) : bool :=
  match cls with
  | Rectangle_cls | Triangle_cls => true
  | Circle_cls => false
  end.

Module Shape.
Definition area : method value :=
  fun self =>
    match ob_type self with
    | Circle_cls => Circle.area self
    | Rectangle_cls => Rectangle.area self
    | Triangle_cls => Triangle.area self
    end.

Definition perimeter : method value :=
  fun self =>
    match ob_type self with
    | Circle_cls => Circle.perimeter self
    | Rectangle_cls => Rectangle.perimeter self
    | Triangle_cls => Triangle.perimeter self
    end.
End Shape.

Module Polygon.
Definition edge_count : method value :=
  fun self =>
    match ob_type self with
    | Circle_cls => throw AttributeError self
    | Rectangle_cls => Rectangle.edge_count self
    | Triangle_cls => Triangle.edge_count self
    end.

Definition vertex_count : method value :=
  fun self =>
    match ob_type self with
    | Circle_cls => throw AttributeError self
    | Rectangle_cls => Rectangle.vertex_count self
    | Triangle_cls => Triangle.vertex_count self
    end.
End Polygon.

(** ** Vocabulary of the specification *)

Declare Scope result_scope.
Delimit Scope result_scope with result.
Notation "x <- r ;; k" := (result_bind r (fun x => k))
  (at level 100, r at level 99, right associativity) : result_scope.

(** The perimeter of a triangle as the specification writes it:
    [side_a + side_b + side_c]. *)
Definition side_sum (a b c : value) : result value :=
  (ab <- py_add a b ;; py_add ab c)%result.

(** The operand of the square root in Heron's formula,
    [s·(s−a)·(s−b)·(s−c)] with [s = perimeter / 2]. *)
Definition heron_radicand (a b c : value) : result value :=
  (p <- side_sum a b c ;;
   s <- py_truediv p (VInt 2) ;;
   sa <- py_sub s a ;;
   p1 <- py_mul s sa ;;
   sb <- py_sub s b ;;
   p2 <- py_mul p1 sb ;;
   sc <- py_sub s c ;;
   py_mul p2 sc)%result.

(** Heron's formula as the specification writes it: the square root of
    that operand. *)
Definition heron_formula (a b c : value) : result value :=
  (x <- heron_radicand a b c ;; math.sqrt x)%result.

(** The triangle inequality on integer side lengths: no side is longer
    than the other two together; the strict form excludes the boundary. *)
Definition triangle_inequality (a b c : Z) : Prop :=
  a <= b + c /\ b <= a + c /\ c <= a + b.

Definition strict_triangle_inequality (a b c : Z) : Prop :=
  a < b + c /\ b < a + c /\ c < a + b.

(** One side is the sum of the other two. *)
Definition on_boundary (a b c : Z) : Prop :=
  a = b + c \/ b = a + c \/ c = a + b.

(** A value with a NaN in it: the only values that differ from
    themselves under [==]. *)
Definition has_nan (v : value) : bool :=
  match v with
  | VFloat f => F64.is_nan f
  | VComplex re im => F64.is_nan re || F64.is_nan im
  | _ => false
  end.

(** The values of the numeric types, [int] (with [bool]), [float] and
    [complex]. *)
Definition is_number (v : value) : bool :=
  match as_num v with
  | Some _ => true
  | None => false
  end.

(** Two outcomes agree under [==]: the same exception, or two values
    that compare equal. *)
Definition same_outcome (x y : result value) : Prop :=
  match x, y with
  | Ok a, Ok b => py_eq a b = true
  | Raise e, Raise e' => e = e'
  | _, _ => False
  end.

(** A body is read-only when it hands [self] back as it received it,
    whatever the outcome. *)
Definition read_only {A} (m : method A) : Prop :=
  forall self, after m self = self.

(** The capability methods of the three classes, and of the two abstract
    capabilities that dispatch to them. *)
Definition capability_methods : list (method value) :=
  [ Circle.area; Circle.perimeter; Circle.diameter;
    Rectangle.area; Rectangle.perimeter; Rectangle.edge_count;
    Rectangle.vertex_count; Rectangle.is_square;
    Triangle.area; Triangle.perimeter; Triangle.edge_count;
    Triangle.vertex_count;
    Shape.area; Shape.perimeter; Polygon.edge_count; Polygon.vertex_count ].

(** A double that is not a NaN and carries the sign [s]. *)
Definition sign_is (s : bool) (x : spec_float) : Prop :=
  match x with
  | S754_nan => False
  | S754_zero s' | S754_infinity s' | S754_finite s' _ _ => s' = s
  end.

(** The numbers that are not integers: [float] and [complex]. *)
Definition is_inexact (v : value) : bool :=
  match v with
  | VFloat _ | VComplex _ _ => true
  | _ => false
  end.

(** The sign of a double as [-1], [0] or [1]; zeros and NaN count as [0]. *)
Definition fsign (x : spec_float) : Z :=
  match x with
  | S754_zero _ | S754_nan => 0
  | S754_infinity s | S754_finite s _ _ => if s then -1 else 1
  end.

(** A zero, or a finite double with at most 53 digits whose exponent and
    magnitude stay within [B] of [2 ^ 0]: far from overflow and underflow. *)
Definition in_range (B : Z) (x : spec_float) : Prop :=
  match x with
  | S754_zero _ => True
  | S754_finite _ m e =>
      - B <= e /\ Zdigits2 (Zpos m) <= 53 /\ Zdigits2 (Zpos m) + e <= B
  | _ => False
  end.

(** The value of a finite double, scaled by [2 ^ 1075] to an integer. *)
Definition scaled (x : spec_float) : Z :=
  match x with
  | S754_finite s m e => cond_Zopp s (Zpos m) * 2 ^ (e + 1075)
  | _ => 0
  end.

(** A number that, when it is an [int], is below [2 ^ k] in magnitude. *)
Definition int_below (k : Z) (v : value) : Prop :=
  match as_num v with
  | Some (NInt n) => Z.abs n < 2 ^ k
  | Some _ => True
  | None => False
  end.

(** The outcome is a value, or else the [OverflowError] of an [int] that
    does not fit a double. *)
Definition returns_or_overflows {A} (r : result A) : Prop :=
  returns r \/ r = Raise OverflowError.

(** ** Outcomes on a fresh instance; negation *)

(** The outcome of a method on the instance a constructor call yields;
    the exception of the constructor when it raises. *)
Definition on_new {A} (o : result object) (m : method A) : result A :=
  match o with
  | Ok self => call m self
  | Raise e => Raise e
  end.







(** ** The class hierarchy: abstract methods and method resolution

    [Shape(ABC)] and [Polygon(Shape)] declare their methods with
    [@abstractmethod]; the three concrete classes override them. *)

Inductive py_class :=
  | Shape_class
  | Polygon_class
  | Circle_class
  | Rectangle_class
  | Triangle_class.

Definition py_class_eqb (k k' : py_class) : bool :=
  match k, k' with
  | Shape_class, Shape_class | Polygon_class, Polygon_class
  | Circle_class, Circle_class | Rectangle_class, Rectangle_class
  | Triangle_class, Triangle_class => true
  | _, _ => false
  end.

Definition class_of (cls : class_name) : py_class :=
  match cls with
  | Circle_cls => Circle_class
  | Rectangle_cls => Rectangle_class
  | Triangle_cls => Triangle_class
  end.

(** The bases a class statement names; [ABC] itself defines no method. *)
Definition bases (k : py_class) : list py_class :=
  match k with
  | Shape_class => []
  | Polygon_class | Circle_class => [Shape_class]
  | Rectangle_class | Triangle_class => [Polygon_class]
  end.

(** A function of a class body: its name, whether [@abstractmethod]
    marks it, and its body. *)
Record method_def := MethodDef {
  md_name : string;
  md_abstract : bool;
  md_body : method value
}.

(** The body [pass] of the abstract methods returns [None]. *)
Definition abstract_body : method value := ret VNone.

(** The functions each class body defines, [__init__] apart; the methods
    every class inherits from [object] are left out. *)
Definition namespace (k : py_class) : list method_def :=
  match k with
  | Shape_class =>
      [ MethodDef "area" true abstract_body;
        MethodDef "perimeter" true abstract_body ]
  | Polygon_class =>
      [ MethodDef "edge_count" true abstract_body;
        MethodDef "vertex_count" true abstract_body ]
  | Circle_class =>
      [ MethodDef "area" false Circle.area;
        MethodDef "perimeter" false Circle.perimeter;
        MethodDef "diameter" false Circle.diameter ]
  | Rectangle_class =>
      [ MethodDef "area" false Rectangle.area;
        MethodDef "perimeter" false Rectangle.perimeter;
        MethodDef "edge_count" false Rectangle.edge_count;
        MethodDef "vertex_count" false Rectangle.vertex_count;
        MethodDef "is_square" false Rectangle.is_square ]
  | Triangle_class =>
      [ MethodDef "area" false Triangle.area;
        MethodDef "perimeter" false Triangle.perimeter;
        MethodDef "edge_count" false Triangle.edge_count;
        MethodDef "vertex_count" false Triangle.vertex_count ]
  end.

(** The method resolution order: with one base per class, the class
    followed by the order of its base.  [depth] bounds the length of the
    chain of bases that is followed; five classes make no longer chain. *)
Fixpoint mro_from (depth : nat) (k : py_class) : list py_class :=
  k :: match depth with
       | O => []
       | S d => flat_map (mro_from d) (bases k)
       end.

Definition mro (k : py_class) : list py_class := mro_from 5 k.

(** [issubclass(k, k')] *)
Definition subclass (k k' : py_class) : bool :=
  existsb (fun c => py_class_eqb c k') (mro k).

(** Looking a name up on a class: the first definition along the
    resolution order. *)
Definition type_lookup (k : py_class) (name : string) : option method_def :=
  List.find (fun d => String.eqb (md_name d) name)
            (flat_map namespace (mro k)).

Definition is_abstract (k : py_class) (name : string) : bool :=
  match type_lookup k name with
  | Some d => md_abstract d
  | None => false
  end.

(** [__abstractmethods__], as [ABCMeta] computes it when the class is
    created: the abstract functions of the class body, and the names
    abstract in a base that still resolve to an abstract function.  It is
    a set; the order of the list carries no meaning. *)
Fixpoint abstractmethods_from (depth : nat) (k : py_class) : list string :=
  map md_name (List.filter md_abstract (namespace k)) ++
  match depth with
  | O => []
  | S d =>
      List.filter (is_abstract k) (flat_map (abstractmethods_from d) (bases k))
  end.

Definition abstractmethods (k : py_class) : list string :=
  abstractmethods_from 5 k.

(** [k(args)]: a class with abstract methods left cannot be instantiated;
    otherwise [__init__] runs on a fresh instance, and a wrong number of
    arguments is a [TypeError]. *)
Definition construct (k : py_class) (args : list value) : result object :=
  match abstractmethods k with
  | _ :: _ => Raise TypeError
  | [] =>
      match k, args with
      | Circle_class, [radius] => Circle.new radius
      | Rectangle_class, [width; height] => Rectangle.new width height
      | Triangle_class, [side_a; side_b; side_c] =>
          Triangle.new side_a side_b side_c
      | _, _ => Raise TypeError
      end
  end.

(** [self.name()]: the attribute dictionary of the instance is searched
    before the functions of the class; what is stored there is a plain
    value, and calling it is a [TypeError]. *)
Definition invoke (name : string) : method value :=
  fun self =>
    match ob_dict self !! name with
    | Some _ => throw TypeError self
    | None =>
        match type_lookup (class_of (ob_type self)) name with
        | Some d => md_body d self
        | None => throw AttributeError self
        end
    end.

(** No attribute of the instance hides a method of the classes. *)
Definition unshadowed (self : object) : Prop :=
  forall name,
    In name ["area"; "perimeter"; "edge_count"; "vertex_count"; "diameter";
             "is_square"] ->
    ob_dict self !! name = None.

(** ** The test suites of the shapes *)

(** How a test ends: its assertions hold, one of them fails, or an
    exception other than the failed assertion escapes. *)
Inductive verdict := Passed | Failed | Errored (e : exn).

Definition verdict_of (r : result bool) : verdict :=
  match r with
  | Ok true => Passed
  | Ok false => Failed
  | Raise e => Errored e
  end.

(** A test body runs against the fixture it is handed and yields whether
    its assertion holds.  A fixture that raises makes the test an error. *)
Definition run_test (fixture : result object) (body : method bool) : verdict :=
  match fixture with
  | Ok self => verdict_of (call body self)
  | Raise e => Errored e
  end.

(** [assert e == e] where both sides are the outcome [r] of the same
    expression: it fails only on a value that differs from itself. *)
Definition assertion (r : result value) : verdict :=
  match r with
  | Ok v => if has_nan v then Failed else Passed
  | Raise e => Errored e
  end.

(** [v is True], [v is False] *)
Definition is_True (v : value) : bool :=
  match v with
  | VBool true => true
  | _ => false
  end.

Definition is_False (v : value) : bool :=
  match v with
  | VBool false => true
  | _ => false
  end.

(** [examples/shapes/implementations/python/tests/test_rectangle.py] *)
Module test_rectangle.
(** The fixture. *)
Definition rectangle : result object := Rectangle.new (VInt 10) (VInt 4).

Definition test_is_square : method bool :=
  square <- eval (Rectangle.new (VInt 10) (VInt 10)) ;;
  rect <- eval (Rectangle.new (VInt 10) (VInt 4)) ;;
  r1 <- eval (call (invoke "is_square") square) ;;
  if negb (is_True r1) then ret false
  else
    r2 <- eval (call (invoke "is_square") rect) ;;
    ret (is_False r2).

Definition test_edge_count : method bool :=
  n <- invoke "edge_count" ;;
  ret (py_eq n (VInt 4)).

Definition test_vertex_count : method bool :=
  n <- invoke "vertex_count" ;;
  ret (py_eq n (VInt 4)).

Definition test_perimeter : method bool :=
  w <- getattr "width" ;;
  h <- getattr "height" ;;
  t <- eval (py_add w h) ;;
  expected <- eval (py_mul (VInt 2) t) ;;
  p <- invoke "perimeter" ;;
  ret (py_eq p expected).

Definition test_area : method bool :=
  a <- invoke "area" ;;
  w <- getattr "width" ;;
  h <- getattr "height" ;;
  e <- eval (py_mul w h) ;;
  ret (py_eq a e).

(** The marker each test carries. *)
Definition marks : list (string * string) :=
  [ ("test_is_square", "group_rectangle");
    ("test_edge_count", "group_polygon");
    ("test_vertex_count", "group_polygon");
    ("test_perimeter", "group_shape");
    ("test_area", "group_shape") ].
End test_rectangle.

(** [examples/shapes/implementations/python/tests/test_triangle.py].
    [test_area] raises to the power [0.5], which is outside the
    arithmetic modelled here; it has a marker below and no body. *)
Module test_triangle.
(** The fixture. *)
Definition triangle : result object :=
  Triangle.new (VInt 3) (VInt 4) (VInt 5).

Definition test_edge_count : method bool :=
  n <- invoke "edge_count" ;;
  ret (py_eq n (VInt 3)).

Definition test_vertex_count : method bool :=
  n <- invoke "vertex_count" ;;
  ret (py_eq n (VInt 3)).

Definition test_perimeter : method bool :=
  p <- invoke "perimeter" ;;
  a <- getattr "side_a" ;;
  b <- getattr "side_b" ;;
  ab <- eval (py_add a b) ;;
  c <- getattr "side_c" ;;
  e <- eval (py_add ab c) ;;
  ret (py_eq p e).

Definition marks : list (string * string) :=
  [ ("test_edge_count", "group_polygon");
    ("test_vertex_count", "group_polygon");
    ("test_perimeter", "group_shape");
    ("test_area", "group_shape") ].
End test_triangle.

(** [examples/shapes/python/tests/test_circle.py], run against the
    [Circle] above.  The module constant [RADIUS] is a parameter of the
    bodies that read it; the module binds it to 7 and builds its circle
    once, when it is imported. *)
Module test_circle.
Definition RADIUS : Z := 7.

Definition circle_of (RADIUS : Z) : result object := Circle.new (VInt RADIUS).

Definition circle : result object := circle_of RADIUS.

Definition test_diameter : method bool :=
  d <- invoke "diameter" ;;
  ret (py_eq d (VInt 14)).

Definition test_radius : method bool :=
  r <- getattr "radius" ;;
  ret (py_eq r (VInt 7)).

Definition test_perimeter_of (RADIUS : Z) : method bool :=
  p <- invoke "perimeter" ;;
  t <- eval (py_mul math.pi (VInt RADIUS)) ;;
  e <- eval (py_mul t (VInt 2)) ;;
  ret (py_eq p e).

Definition test_area_of (RADIUS : Z) : method bool :=
  a <- invoke "area" ;;
  e <- eval (py_mul math.pi (VInt (RADIUS ^ 2))) ;;
  ret (py_eq a e).

Definition test_perimeter : method bool := test_perimeter_of RADIUS.

Definition test_area : method bool := test_area_of RADIUS.
End test_circle.

(** ** The 16-bit calculator of
       [examples/calculator/generated/pytest/test_16_bit.py]

    [add] and [multiply] take Python ints, as their annotations say;
    [%] with a positive right operand is the floor remainder,
    [Z.modulo]. *)

Module test_16_bit.
Definition MAX_VALUE : Z := 2 ^ 16 - 1.

Definition add (a b : Z) : Z := (a + b) mod (MAX_VALUE + 1).

Definition multiply (a b : Z) : Z := (a * b) mod (MAX_VALUE + 1).

(** The conditions the four tests assert. *)
Definition test_product_overflow : bool :=
  multiply MAX_VALUE 2 =? MAX_VALUE - 1.

Definition test_product : bool := multiply 3 4 =? 12.

Definition test_overflow_sum : bool := add MAX_VALUE 1 =? 0.

Definition test_sum : bool := add 3 4 =? 7.

Definition marks : list (string * string) :=
  [ ("test_product_overflow", "group_multiply");
    ("test_product", "group_multiply");
    ("test_overflow_sum", "group_add");
    ("test_sum", "group_add") ].
End test_16_bit.

(** ** Marker registration in the [conftest.py] files

    A pytest configuration, as far as [pytest_configure] touches it: the
    ini values that hold lists of lines. *)

Definition getini (name : string) (cfg : gmap string (list string))
    : list string :=
  default [] (cfg !! name).

(** [config.addinivalue_line(name, line)] appends a line to an ini value. *)
Definition addinivalue_line (name line : string)
    (cfg : gmap string (list string)) : gmap string (list string) :=
  <[name := getini name cfg ++ [line]]> cfg.

(** The name a marker line registers: the text before its first colon. *)
Definition marker_name (line : string) : string :=
  match String.index 0 ":" line with
  | Some n => String.substring 0 n line
  | None => line
  end.

Definition registered (cfg : gmap string (list string)) (marker : string)
    : bool :=
  existsb (fun line => String.eqb (marker_name line) marker)
          (getini "markers" cfg).

(** [examples/shapes/implementations/python/tests/conftest.py] *)
Module shapes_conftest.
Definition pytest_configure (cfg : gmap string (list string))
    : gmap string (list string) :=
  addinivalue_line "markers"
    "group_rectangle: marks tests related to rectangle functionality"
  (addinivalue_line "markers"
    "group_circle: marks tests related to circle functionality"
  (addinivalue_line "markers"
    "group_shape: marks tests related to shape functionality"
  (addinivalue_line "markers"
    "group_polygon: marks tests related to polygon functionality"
     cfg))).
End shapes_conftest.

(** [examples/calculator/generated/pytest/conftest.py] *)
Module calculator_conftest.
Definition pytest_configure (cfg : gmap string (list string))
    : gmap string (list string) :=
  addinivalue_line "markers" "group_multiply: Multiplication tests"
  (addinivalue_line "markers" "group_add: Addition tests" cfg).
End calculator_conftest.

(** * Lemmas *)

(** ** Rounding keeps the sign *)

Section RoundingSign.
Variables prec emax : Z.

Lemma shr_1_nonneg mrs : 0 <= shr_m mrs -> 0 <= shr_m (shr_1 mrs).
Proof.
  destruct mrs as [m r s]. simpl.
  destruct m as [ | [p | p | ] | p]; simpl; lia.
Qed.

Lemma iter_shr_1_nonneg p : forall mrs,
  0 <= shr_m mrs -> 0 <= shr_m (SpecFloat.iter_pos shr_1 p mrs).
Proof.
  induction p as [p IH | p IH | ]; intros mrs H; simpl.
  - apply IH, IH, shr_1_nonneg, H.
  - apply IH, IH, H.
  - apply shr_1_nonneg, H.
Qed.

Lemma shr_nonneg mrs e n :
  0 <= shr_m mrs -> 0 <= shr_m (fst (shr mrs e n)).
Proof.
  intros H. destruct n; simpl; trivial. now apply iter_shr_1_nonneg.
Qed.

Lemma shr_record_of_loc_m m l : shr_m (shr_record_of_loc m l) = m.
Proof. destruct l as [ | [ | | ]]; reflexivity. Qed.

Lemma shr_fexp_nonneg m e l :
  0 <= m -> 0 <= shr_m (fst (shr_fexp prec emax m e l)).
Proof.
  intros H. unfold shr_fexp. apply shr_nonneg.
  now rewrite shr_record_of_loc_m.
Qed.

Lemma round_nearest_even_nonneg m l :
  0 <= m -> 0 <= round_nearest_even m l.
Proof.
  intros H. destruct l as [ | [ | | ]]; simpl; try lia.
  destruct (Z.even m); lia.
Qed.

Lemma binary_round_aux_sign s m e l :
  0 <= m -> sign_is s (binary_round_aux prec emax s m e l).
Proof.
  intros H. unfold binary_round_aux.
  pose proof (shr_fexp_nonneg m e l H) as H1.
  destruct (shr_fexp prec emax m e l) as [mrs' e']. simpl in H1.
  pose proof (shr_fexp_nonneg _ e' loc_Exact
                (round_nearest_even_nonneg _ (loc_of_shr_record mrs') H1)) as H2.
  destruct (shr_fexp prec emax _ e' loc_Exact) as [mrs'' e'']. simpl in H2.
  destruct (shr_m mrs'') as [ | p | p]; simpl.
  - reflexivity.
  - now destruct (e'' <=? emax - prec).
  - lia.
Qed.
End RoundingSign.

(** ** Digits and shifts *)

Lemma digits2_pos_bounds p :
  2 ^ (Zpos (digits2_pos p) - 1) <= Zpos p < 2 ^ Zpos (digits2_pos p).
Proof.
  induction p as [p IH | p IH | ]; simpl digits2_pos.
  - rewrite Pos2Z.inj_succ.
    replace (Z.succ (Zpos (digits2_pos p)) - 1) with (Z.succ (Zpos (digits2_pos p) - 1)) by lia.
    rewrite !Z.pow_succ_r by lia. lia.
  - rewrite Pos2Z.inj_succ.
    replace (Z.succ (Zpos (digits2_pos p)) - 1) with (Z.succ (Zpos (digits2_pos p) - 1)) by lia.
    rewrite !Z.pow_succ_r by lia. lia.
  - simpl. lia.
Qed.

Lemma Zdigits2_nonneg x : 0 <= Zdigits2 x.
Proof. destruct x; simpl; lia. Qed.

Lemma Zdigits2_upper x : 0 <= x -> x < 2 ^ Zdigits2 x.
Proof.
  intros H. destruct x as [ | p | p]; simpl; try lia.
  apply digits2_pos_bounds.
Qed.

Lemma Zdigits2_le x k : 0 <= x < 2 ^ k -> 0 <= k -> Zdigits2 x <= k.
Proof.
  intros [H0 H1] Hk. destruct x as [ | p | p]; simpl; try lia.
  pose proof (digits2_pos_bounds p) as [Hlo _].
  assert (2 ^ (Zpos (digits2_pos p) - 1) < 2 ^ k) as Hlt by lia.
  apply Z.pow_lt_mono_r_iff in Hlt; lia.
Qed.

Lemma Zdigits2_gt x k : 0 <= k -> 2 ^ k <= x -> k < Zdigits2 x.
Proof.
  intros Hk H. assert (0 < x) by (pose proof (Z.pow_pos_nonneg 2 k); lia).
  pose proof (Zdigits2_upper x ltac:(lia)) as Hu.
  assert (2 ^ k < 2 ^ Zdigits2 x) as Hlt by lia.
  apply Z.pow_lt_mono_r_iff in Hlt; [ lia | lia | apply Zdigits2_nonneg ].
Qed.

Lemma shr_1_m mrs : 0 <= shr_m mrs -> shr_m (shr_1 mrs) = shr_m mrs / 2.
Proof.
  destruct mrs as [m r s]. simpl. intros H.
  destruct m as [ | [p | p | ] | p]; simpl; try lia; try reflexivity.
  - rewrite Pos2Z.inj_xI. apply Z.div_unique with 1; lia.
  - rewrite Pos2Z.inj_xO. apply Z.div_unique with 0; lia.
Qed.

Lemma pow2_xI p : 2 ^ Zpos p~1 = 2 * 2 ^ Zpos p * 2 ^ Zpos p.
Proof.
  assert (Zpos p~1 = 1 + Zpos p + Zpos p) as -> by lia.
  do 2 rewrite Z.pow_add_r by lia. reflexivity.
Qed.

Lemma pow2_xO p : 2 ^ Zpos p~0 = 2 ^ Zpos p * 2 ^ Zpos p.
Proof.
  assert (Zpos p~0 = Zpos p + Zpos p) as -> by lia.
  now rewrite Z.pow_add_r by lia.
Qed.

Lemma iter_shr_1_m p : forall mrs,
  0 <= shr_m mrs ->
  shr_m (SpecFloat.iter_pos shr_1 p mrs) = shr_m mrs / 2 ^ Zpos p.
Proof.
  induction p as [p IH | p IH | ]; intros mrs H; simpl SpecFloat.iter_pos.
  - rewrite IH, IH, shr_1_m; auto using shr_1_nonneg, iter_shr_1_nonneg.
    assert (0 < 2 ^ Zpos p) by (apply Z.pow_pos_nonneg; lia).
    rewrite !Z.div_div by lia. rewrite pow2_xI. f_equal. ring.
  - rewrite IH, IH; auto using iter_shr_1_nonneg.
    assert (0 < 2 ^ Zpos p) by (apply Z.pow_pos_nonneg; lia).
    rewrite !Z.div_div by lia. rewrite pow2_xO. f_equal.
  - rewrite shr_1_m by assumption. reflexivity.
Qed.

Lemma shr_m_e mrs e n :
  0 <= shr_m mrs ->
  shr_m (fst (shr mrs e n)) = shr_m mrs / 2 ^ Z.max 0 n /\
  snd (shr mrs e n) = e + Z.max 0 n.
Proof.
  intros H. destruct n as [ | p | p]; simpl.
  - rewrite Z.div_1_r. split; lia.
  - rewrite iter_shr_1_m by assumption. split; [ reflexivity | lia ].
  - rewrite Z.div_1_r. split; lia.
Qed.

Lemma div_pow2_bound m d k :
  0 <= m < 2 ^ d -> 0 <= d -> 0 <= k ->
  0 <= m / 2 ^ k < 2 ^ Z.max 0 (d - k).
Proof.
  intros [H0 H1] Hd Hk.
  assert (0 < 2 ^ k) by (apply Z.pow_pos_nonneg; lia).
  split; [ apply Z.div_pos; lia | ].
  destruct (Z.le_gt_cases k d) as [Hle | Hgt].
  - rewrite Z.max_r by lia. apply Z.div_lt_upper_bound; [ lia | ].
    rewrite <- Z.pow_add_r by lia. now replace (k + (d - k)) with d by lia.
  - rewrite Z.max_l by lia. rewrite Z.div_small; [ simpl; lia | ].
    split; [ lia | ]. apply Z.lt_le_trans with (2 ^ d); [ lia | ].
    apply Z.pow_le_mono_r; lia.
Qed.

Lemma round_nearest_even_bounds m l :
  m <= round_nearest_even m l <= m + 1.
Proof.
  destruct l as [ | [ | | ]]; simpl; try lia. destruct (Z.even m); lia.
Qed.

(** ** The two shifts of a rounding, spelled out *)

Section RoundingShape.
Variables prec emax : Z.

Lemma binary_round_aux_shape s m e l :
  0 <= m ->
  let k1 := Z.max 0 (fexp prec emax (Zdigits2 m + e) - e) in
  let m1 := m / 2 ^ k1 in
  let e1 := e + k1 in
  exists m1',
    m1 <= m1' <= m1 + 1 /\
    let k2 := Z.max 0 (fexp prec emax (Zdigits2 m1' + e1) - e1) in
    let m2 := m1' / 2 ^ k2 in
    let e2 := e1 + k2 in
    binary_round_aux prec emax s m e l =
    match m2 with
    | Z0 => S754_zero s
    | Zpos p => if e2 <=? emax - prec then S754_finite s p e2 else S754_infinity s
    | Zneg _ => S754_nan
    end.
Proof.
  intros Hm k1 m1 e1. unfold binary_round_aux, shr_fexp.
  pose proof (shr_m_e (shr_record_of_loc m l) e
                (fexp prec emax (Zdigits2 m + e) - e)) as H1.
  rewrite shr_record_of_loc_m in H1. specialize (H1 Hm).
  destruct (shr (shr_record_of_loc m l) e _) as [mrs' e'].
  simpl in H1. destruct H1 as [H1m H1e].
  fold k1 in H1m, H1e. fold m1 in H1m. fold e1 in H1e.
  set (m1' := round_nearest_even (shr_m mrs') (loc_of_shr_record mrs')).
  exists m1'. split.
  { unfold m1'. rewrite <- H1m. apply round_nearest_even_bounds. }
  assert (0 <= m1') as Hm1'.
  { unfold m1'. apply round_nearest_even_nonneg. rewrite H1m.
    apply Z.div_pos; [ lia | apply Z.pow_pos_nonneg; lia ]. }
  subst e'.
  pose proof (shr_m_e (shr_record_of_loc m1' loc_Exact) e1
                (fexp prec emax (Zdigits2 m1' + e1) - e1)) as H2.
  rewrite shr_record_of_loc_m in H2. specialize (H2 Hm1').
  destruct (shr (shr_record_of_loc m1' loc_Exact) e1 _) as [mrs'' e''].
  simpl in H2. destruct H2 as [H2m H2e]. cbv zeta.
  rewrite H2m, H2e. reflexivity.
Qed.
End RoundingShape.

(** ** Binary64: no overflow below 2^1023 *)

Lemma fexp64 e : fexp 53 1024 e = Z.max (e - 53) (-1074).
Proof. reflexivity. Qed.

Lemma binary_round_aux_no_overflow s m e l :
  0 <= m -> Zdigits2 m + e <= 1023 -> e <= 971 ->
  forall s', binary_round_aux 53 1024 s m e l <> S754_infinity s'.
Proof.
  intros Hm Hd He s'.
  destruct (binary_round_aux_shape 53 1024 s m e l Hm) as (m1' & Hm1' & Heq).
  cbv zeta in Heq. rewrite Heq. clear Heq.
  set (k1 := Z.max 0 (fexp 53 1024 (Zdigits2 m + e) - e)) in *.
  set (e1 := e + k1) in *.
  set (k2 := Z.max 0 (fexp 53 1024 (Zdigits2 m1' + e1) - e1)).
  assert (0 <= k1) as Hk1 by (unfold k1; lia).
  pose proof (div_pow2_bound m (Zdigits2 m) k1
                (conj Hm (Zdigits2_upper m Hm)) (Zdigits2_nonneg m) Hk1) as Hb.
  assert (Zdigits2 m1' <= Z.max 0 (Zdigits2 m - k1) + 1) as Hd1.
  { apply Zdigits2_le; [ | lia ]. split; [ lia | ].
    rewrite Z.pow_add_r by lia. change (2 ^ 1) with 2. lia. }
  assert (e1 + k2 <= 971) as Hfin.
  { unfold k2, e1 in *. unfold k1 in *. rewrite !fexp64 in *. lia. }
  destruct (m1' / 2 ^ k2) as [ | p | p]; try discriminate.
  change (1024 - 53) with 971.
  destruct (e1 + k2 <=? 971) eqn:E; [ discriminate | ].
  apply Z.leb_gt in E. lia.
Qed.

Lemma iter_xO m d : Zpos (Pos.iter xO m d) = Zpos m * 2 ^ Zpos d.
Proof.
  induction d as [ | d IH] using Pos.peano_ind.
  - simpl. lia.
  - rewrite Pos.iter_succ, Pos2Z.inj_xO, IH, Pos2Z.inj_succ.
    rewrite Z.pow_succ_r by lia. ring.
Qed.

Lemma binary_round_sign s m e : sign_is s (binary_round 53 1024 s m e).
Proof.
  unfold binary_round.
  destruct (shl_align m e _) as [mz ez]. now apply binary_round_aux_sign.
Qed.

Lemma binary_round_no_overflow s m e :
  Zpos (digits2_pos m) + e <= 1023 -> e <= 971 ->
  forall s', binary_round 53 1024 s m e <> S754_infinity s'.
Proof.
  intros Hd He s'. unfold binary_round, shl_align.
  set (e' := fexp 53 1024 (Zpos (digits2_pos m) + e)).
  assert (Zdigits2 (Zpos m) = Zpos (digits2_pos m)) as Hdm by reflexivity.
  destruct (e' - e) as [ | d | d] eqn:E.
  - apply binary_round_aux_no_overflow; lia.
  - apply binary_round_aux_no_overflow; lia.
  - apply binary_round_aux_no_overflow; [ lia | | lia ].
    assert (Zdigits2 (Zpos (Pos.iter xO m d)) <= Zpos (digits2_pos m) + Zpos d);
      [ | lia ].
    apply Zdigits2_le; [ | lia ]. split; [ lia | ].
    rewrite iter_xO, Z.pow_add_r by lia.
    pose proof (digits2_pos_bounds m) as [_ Hu].
    apply Z.mul_lt_mono_pos_r; [ apply Z.pow_pos_nonneg; lia | exact Hu ].
Qed.

Lemma of_Z_finite n :
  Z.abs n < 2 ^ 1023 ->
  forall s', binary_normalize 53 1024 n 0 false <> S754_infinity s'.
Proof.
  intros Hn s'. destruct n as [ | p | p]; simpl binary_normalize.
  - discriminate.
  - apply binary_round_no_overflow; [ | lia ].
    assert (Zdigits2 (Zpos p) <= 1023); [ | simpl in *; lia ].
    apply Zdigits2_le; lia.
  - apply binary_round_no_overflow; [ | lia ].
    assert (Zdigits2 (Zpos p) <= 1023); [ | simpl in *; lia ].
    apply Zdigits2_le; lia.
Qed.

(** ** Running method bodies *)

Section MethodLaws.
Context {A B : Type}.

Lemma bind_eval_Ok (a : A) (k : A -> method B) self :
  bind (eval (Ok a)) k self = k a self.
Proof. reflexivity. Qed.

Lemma bind_getattr name v (k : value -> method B) self :
  ob_dict self !! name = Some v ->
  bind (getattr name) k self = k v self.
Proof. intros H. unfold bind, getattr. now rewrite H. Qed.

End MethodLaws.

Lemma read_only_ret {A} (a : A) : read_only (ret a).
Proof. intros self. reflexivity. Qed.

Lemma read_only_eval {A} (r : result A) : read_only (eval r).
Proof. intros self. reflexivity. Qed.

Lemma read_only_getattr name : read_only (getattr name).
Proof. intros self. reflexivity. Qed.

Lemma read_only_bind {A B} (m : method A) (k : A -> method B) :
  read_only m -> (forall a, read_only (k a)) -> read_only (bind m k).
Proof.
  intros Hm Hk self. unfold after, bind.
  specialize (Hm self). unfold after in Hm.
  destruct (m self) as [[a | e] self']; simpl in Hm; subst self'.
  - apply Hk.
  - reflexivity.
Qed.

Create HintDb read_only.
#[local] Hint Resolve read_only_ret read_only_eval read_only_getattr
  read_only_bind : read_only.

(** ** What the constructors build *)

Lemma Circle_new_dict radius :
  isinstance radius [int_t; float_t; complex_t] = true ->
  Circle.new radius = Ok (Object Circle_cls (<["radius" := radius]> ∅)).
Proof.
  intros H. unfold Circle.new, Circle.__init__, instantiate.
  now rewrite H.
Qed.

Lemma Circle_new_rejects radius :
  isinstance radius [int_t; float_t; complex_t] = false ->
  Circle.new radius = Raise ValueError.
Proof.
  intros H. unfold Circle.new, Circle.__init__, instantiate.
  now rewrite H.
Qed.

Lemma Rectangle_new_dict width height :
  Rectangle.new width height =
  Ok (Object Rectangle_cls (<["height" := height]> (<["width" := width]> ∅))).
Proof. reflexivity. Qed.

Lemma Triangle_new_dict a b c :
  Triangle.new a b c =
  Ok (Object Triangle_cls
        (<["side_c" := c]> (<["side_b" := b]> (<["side_a" := a]> ∅)))).
Proof. reflexivity. Qed.

(** ** Methods as functions of the stored attributes *)

Lemma Circle_area_of_radius self r :
  ob_dict self !! "radius" = Some r ->
  call Circle.area self = result_bind (py_mul math.pi r) (fun t => py_mul t r).
Proof.
  intros H. unfold call, Circle.area.
  rewrite (bind_getattr _ _ _ _ H).
  destruct (py_mul math.pi r) as [t | e]; [ | reflexivity ].
  rewrite bind_eval_Ok, (bind_getattr _ _ _ _ H). reflexivity.
Qed.

Lemma Circle_perimeter_of_radius self r :
  ob_dict self !! "radius" = Some r ->
  call Circle.perimeter self =
  result_bind (py_mul (VInt 2) math.pi) (fun t => py_mul t r).
Proof.
  intros H. unfold call, Circle.perimeter.
  destruct (py_mul (VInt 2) math.pi) as [t | e]; [ | reflexivity ].
  rewrite bind_eval_Ok, (bind_getattr _ _ _ _ H). reflexivity.
Qed.

Lemma Circle_diameter_of_radius self r :
  ob_dict self !! "radius" = Some r ->
  call Circle.diameter self = py_mul (VInt 2) r.
Proof.
  intros H. unfold call, Circle.diameter.
  rewrite (bind_getattr _ _ _ _ H). reflexivity.
Qed.

Lemma Rectangle_area_of_sides self w h :
  ob_dict self !! "width" = Some w ->
  ob_dict self !! "height" = Some h ->
  call Rectangle.area self = py_mul w h.
Proof.
  intros Hw Hh. unfold call, Rectangle.area.
  rewrite (bind_getattr _ _ _ _ Hw), (bind_getattr _ _ _ _ Hh). reflexivity.
Qed.

Lemma Rectangle_perimeter_of_sides self w h :
  ob_dict self !! "width" = Some w ->
  ob_dict self !! "height" = Some h ->
  call Rectangle.perimeter self =
  result_bind (py_add w h) (fun t => py_mul (VInt 2) t).
Proof.
  intros Hw Hh. unfold call, Rectangle.perimeter.
  rewrite (bind_getattr _ _ _ _ Hw), (bind_getattr _ _ _ _ Hh).
  destruct (py_add w h); reflexivity.
Qed.

Lemma Rectangle_is_square_of_sides self w h :
  ob_dict self !! "width" = Some w ->
  ob_dict self !! "height" = Some h ->
  call Rectangle.is_square self = Ok (VBool (py_eq w h)).
Proof.
  intros Hw Hh. unfold call, Rectangle.is_square.
  rewrite (bind_getattr _ _ _ _ Hw), (bind_getattr _ _ _ _ Hh). reflexivity.
Qed.

Lemma Triangle_perimeter_of_sides self a b c :
  ob_dict self !! "side_a" = Some a ->
  ob_dict self !! "side_b" = Some b ->
  ob_dict self !! "side_c" = Some c ->
  call Triangle.perimeter self = side_sum a b c.
Proof.
  intros Ha Hb Hc. unfold call, Triangle.perimeter, side_sum.
  rewrite (bind_getattr _ _ _ _ Ha), (bind_getattr _ _ _ _ Hb).
  destruct (py_add a b) as [ab | e]; [ | reflexivity ].
  rewrite bind_eval_Ok, (bind_getattr _ _ _ _ Hc). reflexivity.
Qed.

Ltac step_eval :=
  cbn [result_bind];
  match goal with
  | |- context [bind (eval ?r) _ _] =>
      let v := fresh "v" in
      destruct r as [v | ?];
      [ rewrite bind_eval_Ok; cbn [result_bind] | reflexivity ]
  end.

Lemma Triangle_area_of_sides self a b c :
  ob_dict self !! "side_a" = Some a ->
  ob_dict self !! "side_b" = Some b ->
  ob_dict self !! "side_c" = Some c ->
  call Triangle.area self = heron_formula a b c.
Proof.
  intros Ha Hb Hc.
  unfold call, Triangle.area, heron_formula, heron_radicand, side_sum.
  rewrite (bind_getattr _ _ _ _ Ha), (bind_getattr _ _ _ _ Hb).
  step_eval. rewrite (bind_getattr _ _ _ _ Hc).
  step_eval. step_eval. rewrite (bind_getattr _ _ _ _ Ha).
  step_eval. step_eval. rewrite (bind_getattr _ _ _ _ Hb).
  step_eval. step_eval. rewrite (bind_getattr _ _ _ _ Hc).
  step_eval. step_eval. reflexivity.
Qed.

(** The attributes of freshly built instances. *)

Lemma Rectangle_new_attrs w h :
  exists r, Rectangle.new w h = Ok r /\ ob_type r = Rectangle_cls /\
    ob_dict r !! "width" = Some w /\ ob_dict r !! "height" = Some h.
Proof.
  eexists. split; [ apply Rectangle_new_dict | ].
  split; [ reflexivity | ]. cbn [ob_dict]. split; now simplify_map_eq.
Qed.

Lemma Triangle_new_attrs a b c :
  exists t, Triangle.new a b c = Ok t /\ ob_type t = Triangle_cls /\
    ob_dict t !! "side_a" = Some a /\ ob_dict t !! "side_b" = Some b /\
    ob_dict t !! "side_c" = Some c.
Proof.
  eexists. split; [ apply Triangle_new_dict | ].
  split; [ reflexivity | ]. cbn [ob_dict]. repeat split; now simplify_map_eq.
Qed.

Lemma Circle_new_attrs r :
  is_number r = true ->
  exists c, Circle.new r = Ok c /\ ob_type c = Circle_cls /\
    ob_dict c !! "radius" = Some r.
Proof.
  intros H. eexists. split.
  - apply Circle_new_dict. now destruct r.
  - split; [ reflexivity | apply lookup_insert_eq ].
Qed.

(** ** Equality of values *)

Lemma F64_eqb_refl x : F64.eqb x x = negb (F64.is_nan x).
Proof.
  destruct x as [[ | ] | [ | ] | | [ | ] m e]; try reflexivity;
    unfold F64.eqb, SFeqb, SFcompare;
    now rewrite Z.compare_refl, Pos.compare_cont_refl.
Qed.

Lemma py_eq_refl v : py_eq v v = negb (has_nan v).
Proof.
  destruct v as [ | b | n | f | re im | s];
    unfold py_eq; cbn [as_num num_eqb has_nan negb].
  - reflexivity.
  - apply Z.eqb_refl.
  - apply Z.eqb_refl.
  - apply F64_eqb_refl.
  - unfold Cx.eqb; cbn [fst snd].
    rewrite !F64_eqb_refl. now rewrite negb_orb.
  - apply String.eqb_refl.
Qed.

(** ** Methods that only read [self] *)

Lemma Circle_read_only :
  read_only Circle.area /\ read_only Circle.perimeter /\
  read_only Circle.diameter.
Proof.
  unfold Circle.area, Circle.perimeter, Circle.diameter.
  repeat split; auto 40 with read_only.
Qed.

Lemma Rectangle_read_only :
  read_only Rectangle.area /\ read_only Rectangle.perimeter /\
  read_only Rectangle.edge_count /\ read_only Rectangle.vertex_count /\
  read_only Rectangle.is_square.
Proof.
  unfold Rectangle.area, Rectangle.perimeter, Rectangle.edge_count,
    Rectangle.vertex_count, Rectangle.is_square.
  repeat split; auto 40 with read_only.
Qed.

Lemma Triangle_read_only :
  read_only Triangle.area /\ read_only Triangle.perimeter /\
  read_only Triangle.edge_count /\ read_only Triangle.vertex_count.
Proof.
  unfold Triangle.area, Triangle.perimeter, Triangle.edge_count,
    Triangle.vertex_count.
  repeat split; auto 40 with read_only.
Qed.

Lemma capability_read_only :
  read_only Shape.area /\ read_only Shape.perimeter /\
  read_only Polygon.edge_count /\ read_only Polygon.vertex_count.
Proof.
  destruct Circle_read_only as (Hca & Hcp & _).
  destruct Rectangle_read_only as (Hra & Hrp & Hre & Hrv & _).
  destruct Triangle_read_only as (Hta & Htp & Hte & Htv).
  repeat split; intros self; unfold after;
    unfold Shape.area, Shape.perimeter, Polygon.edge_count,
      Polygon.vertex_count;
    destruct (ob_type self);
    first [ match goal with
            | H : read_only ?m |- (?m _).2 = _ => exact (H _)
            end
          | reflexivity ].
Qed.

Lemma capability_methods_read_only :
  Forall read_only capability_methods.
Proof.
  destruct Circle_read_only as (? & ? & ?).
  destruct Rectangle_read_only as (? & ? & ? & ? & ?).
  destruct Triangle_read_only as (? & ? & ? & ?).
  destruct capability_read_only as (? & ? & ? & ?).
  unfold capability_methods.
  repeat (constructor; [ assumption | ]). constructor.
Qed.

(** ** Arithmetic on numbers: what can be raised *)

#[local] Arguments F64.of_Z : simpl never.
#[local] Arguments F64.add : simpl never.
#[local] Arguments F64.sub : simpl never.
#[local] Arguments F64.mul : simpl never.
#[local] Arguments F64.div : simpl never.
#[local] Arguments F64.sqrt : simpl never.
#[local] Arguments F64.of_quotient : simpl never.
#[local] Arguments float_of_int : simpl never.

Lemma float_of_int_outcome n :
  float_of_int n = Ok (F64.of_Z n) \/ float_of_int n = Raise OverflowError.
Proof. unfold float_of_int. destruct (F64.of_Z n); auto. Qed.

Lemma float_of_int_below n :
  Z.abs n < 2 ^ 1023 -> float_of_int n = Ok (F64.of_Z n).
Proof.
  intros H. unfold float_of_int.
  pose proof (of_Z_finite n H) as Hfin.
  unfold F64.of_Z, F64.prec, F64.emax in *.
  destruct (binary_normalize 53 1024 n 0 false); try reflexivity.
  now destruct (Hfin s).
Qed.

Lemma float_of_int_2 : float_of_int 2 = Ok (S754_finite false 4503599627370496 (-51)).
Proof. reflexivity. Qed.

Lemma is_number_cases v :
  is_number v = true ->
  (exists b, v = VBool b) \/ (exists n, v = VInt n) \/
  (exists f, v = VFloat f) \/ (exists re im, v = VComplex re im).
Proof. destruct v; try discriminate; eauto 6. Qed.

Ltac number_cases H :=
  apply is_number_cases in H;
  destruct H as [[? ->] | [[? ->] | [[? ->] | (? & ? & ->)]]].

Ltac split_conversions :=
  repeat match goal with
    | |- context [float_of_int ?n] =>
        let E := fresh "E" in
        destruct (float_of_int_outcome n) as [E | E]; rewrite E;
        cbn [result_bind]
    end.

Ltac arith_unfold :=
  unfold py_add, py_sub, py_mul;
  cbn [as_num num_binop to_float to_complex result_bind].

Lemma returns_Ok {A} (a : A) : returns (Ok a).
Proof. now exists a. Qed.

#[local] Hint Resolve returns_Ok : core.

(** [x + y] and [x * y] on numbers: a number comes back, unless an [int]
    could not be converted. *)
Lemma py_add_number x y :
  is_number x = true -> is_number y = true ->
  (exists v, py_add x y = Ok v /\ is_number v = true) \/
  py_add x y = Raise OverflowError.
Proof.
  intros Hx Hy. number_cases Hx; number_cases Hy; arith_unfold;
    split_conversions; eauto.
Qed.

Lemma py_mul_number x y :
  is_number x = true -> is_number y = true ->
  (exists v, py_mul x y = Ok v /\ is_number v = true) \/
  py_mul x y = Raise OverflowError.
Proof.
  intros Hx Hy. number_cases Hx; number_cases Hy; arith_unfold;
    split_conversions; eauto.
Qed.

Lemma int_below_number k v : int_below k v -> is_number v = true.
Proof. unfold int_below, is_number. now destruct (as_num v). Qed.

Ltac use_below :=
  unfold int_below in *; cbn [as_num] in *;
  repeat match goal with
    | H : Z.abs ?n < 2 ^ 1023 |- context [float_of_int ?n] =>
        rewrite (float_of_int_below n H); cbn [result_bind]
    end.

Lemma py_mul_below x y :
  int_below 1023 x -> int_below 1023 y ->
  exists v, py_mul x y = Ok v /\ is_number v = true.
Proof.
  intros Hx Hy.
  pose proof (int_below_number _ _ Hx) as Nx.
  pose proof (int_below_number _ _ Hy) as Ny.
  number_cases Nx; number_cases Ny; arith_unfold; use_below; eauto.
Qed.

Lemma pow2_le_mono a b : 0 <= a <= b -> 2 ^ a <= 2 ^ b.
Proof. intros H. apply Z.pow_le_mono_r; lia. Qed.

Lemma int_below_weaken k k' v :
  0 <= k <= k' -> int_below k v -> int_below k' v.
Proof.
  intros Hk. unfold int_below. destruct (as_num v) as [[n | f | re im] | ]; auto.
  pose proof (pow2_le_mono k k' Hk). lia.
Qed.

Lemma py_add_below k x y :
  0 <= k < 1023 -> int_below k x -> int_below k y ->
  exists v, py_add x y = Ok v /\ int_below (k + 1) v.
Proof.
  intros Hk Hx Hy.
  pose proof (int_below_weaken k 1023 x ltac:(lia) Hx) as Hx'.
  pose proof (int_below_weaken k 1023 y ltac:(lia) Hy) as Hy'.
  pose proof (int_below_number _ _ Hx) as Nx.
  pose proof (int_below_number _ _ Hy) as Ny.
  number_cases Nx; number_cases Ny; arith_unfold; use_below;
    eexists; (split; [ reflexivity | ]); unfold int_below; cbn [as_num];
    trivial; rewrite Z.pow_add_r by lia; change (2 ^ 1) with 2; lia.
Qed.

(** Doubling never raises on a number: the literal [2] always converts. *)
Lemma py_mul_2_number t :
  is_number t = true -> exists v, py_mul (VInt 2) t = Ok v /\ is_number v = true.
Proof.
  intros Ht. number_cases Ht; arith_unfold; rewrite ?float_of_int_2;
    cbn [result_bind]; eauto.
Qed.

(** A product with a float or complex left operand that went through
    goes through again with the same right operand. *)
Lemma py_mul_again p r t :
  is_number r = true -> is_inexact p = true ->
  py_mul p r = Ok t ->
  is_inexact t = true /\ exists v, py_mul t r = Ok v /\ is_inexact v = true.
Proof.
  intros Hr Hp Hmul.
  destruct p as [ | b | n | f | re im | s]; try discriminate;
    number_cases Hr; unfold py_mul in Hmul;
    cbn [as_num num_binop to_float to_complex result_bind] in Hmul;
    repeat match type of Hmul with
      | context [float_of_int ?n] =>
          let E := fresh "E" in
          destruct (float_of_int_outcome n) as [E | E]; rewrite E in Hmul;
          cbn [result_bind] in Hmul
      end;
    try discriminate; injection Hmul as <-; unfold VCx; arith_unfold;
    rewrite ?E; cbn [result_bind];
    (split; [ reflexivity | eexists; split; reflexivity ]).
Qed.

(** ** Where a NaN can come from *)

Lemma sign_is_not_nan s x : sign_is s x -> x <> S754_nan.
Proof. intros H ->. exact H. Qed.

Lemma F64_mul_nan x y :
  F64.mul x y = S754_nan ->
  x = S754_nan \/ y = S754_nan \/
  (exists s s', x = S754_infinity s /\ y = S754_zero s') \/
  (exists s s', x = S754_zero s /\ y = S754_infinity s').
Proof.
  destruct x as [sx | sx | | sx mx ex], y as [sy | sy | | sy my ey];
    unfold F64.mul; cbn [SFmul]; intros H; try discriminate; eauto 8.
  exfalso. revert H. apply sign_is_not_nan with (xorb sx sy).
  now apply binary_round_aux_sign.
Qed.

Lemma F64_mul_finite_nan c x :
  (exists s m e, c = S754_finite s m e) ->
  F64.mul c x = S754_nan -> x = S754_nan.
Proof.
  intros (s & m & e & ->) H.
  destruct (F64_mul_nan _ _ H) as [? | [? | [(? & ? & ? & ?) | (? & ? & ? & ?)]]];
    congruence.
Qed.

(** [(c * x) * x] with a finite [c] is a NaN only when [x] is. *)
Lemma F64_mul_mul_nan c x :
  (exists s m e, c = S754_finite s m e) ->
  F64.mul (F64.mul c x) x = S754_nan -> x = S754_nan.
Proof.
  intros Hc H.
  destruct (F64_mul_nan _ _ H) as [H1 | [? | [(s & s' & H1 & ->) | (s & s' & H1 & ->)]]];
    trivial.
  - now apply (F64_mul_finite_nan c).
  - exfalso. destruct Hc as (sc & mc & ec & ->). discriminate.
  - exfalso. destruct Hc as (sc & mc & ec & ->). discriminate.
Qed.

Lemma of_Z_not_nan n : F64.of_Z n <> S754_nan.
Proof.
  unfold F64.of_Z. destruct n as [ | p | p]; simpl binary_normalize.
  - discriminate.
  - apply sign_is_not_nan with false, binary_round_sign.
  - apply sign_is_not_nan with true, binary_round_sign.
Qed.

Lemma float_of_int_not_nan n f : float_of_int n = Ok f -> f <> S754_nan.
Proof.
  destruct (float_of_int_outcome n) as [E | E]; rewrite E; intros [= <-].
  apply of_Z_not_nan.
Qed.

(** The square root is a NaN, for an operand that is not, exactly when
    the operand is below zero. *)
Lemma sqrt_core_nonneg m e :
  0 <= fst (fst (SFsqrt_core_binary 53 1024 (Zpos m) e)).
Proof.
  unfold SFsqrt_core_binary.
  set (m' := match _ - _ with Zpos _ => _ | Z0 => _ | Zneg _ => _ end).
  pose proof (Z.sqrtrem_sqrt m') as Hs.
  destruct (Z.sqrtrem m') as [q r]. simpl in *. subst q. apply Z.sqrt_nonneg.
Qed.

Lemma F64_sqrt_nan x :
  F64.is_nan (F64.sqrt x) && negb (F64.is_nan x) = F64.ltb x F64.zero.
Proof.
  destruct x as [[ | ] | [ | ] | | [ | ] m e]; try reflexivity.
  unfold F64.sqrt, SFsqrt, F64.prec, F64.emax.
  pose proof (sqrt_core_nonneg m e) as Hq.
  destruct (SFsqrt_core_binary 53 1024 (Zpos m) e) as [[q e'] l]. simpl in Hq.
  pose proof (binary_round_aux_sign 53 1024 false q e' l Hq) as Hs.
  now destruct (binary_round_aux 53 1024 false q e' l).
Qed.

Lemma math_sqrt_float x :
  math.sqrt (VFloat x) =
  if F64.ltb x F64.zero then Raise ValueError else Ok (VFloat (F64.sqrt x)).
Proof.
  unfold math.sqrt. cbn [math.as_double result_bind].
  now rewrite F64_sqrt_nan.
Qed.

(** ** What the arithmetic of [Triangle.area] can raise and return *)

Lemma str_repeat_no_ValueError s n : str_repeat s n <> Raise ValueError.
Proof.
  unfold str_repeat.
  repeat match goal with |- context [if ?c then _ else _] => destruct c end;
    discriminate.
Qed.

Lemma num_binop_no_ValueError iop fop cop x y :
  (forall a b, iop a b <> Raise ValueError) ->
  (forall a b, fop a b <> Raise ValueError) ->
  (forall a b, cop a b <> Raise ValueError) ->
  num_binop iop fop cop x y <> Raise ValueError.
Proof.
  intros Hi Hf Hc.
  destruct x, y; cbn [num_binop to_float to_complex result_bind];
    split_conversions; auto; discriminate.
Qed.

Lemma num_binop_inexact iop fop cop x y v :
  (forall a b w, iop a b = Ok w -> is_inexact w = true) ->
  (forall a b w, fop a b = Ok w -> is_inexact w = true) ->
  (forall a b w, cop a b = Ok w -> is_inexact w = true) ->
  num_binop iop fop cop x y = Ok v -> is_inexact v = true.
Proof.
  intros Hi Hf Hc.
  destruct x, y; cbn [num_binop to_float to_complex result_bind];
    split_conversions; eauto; discriminate.
Qed.

Lemma num_binop_inexact_l iop fop cop x y v :
  (forall a b w, fop a b = Ok w -> is_inexact w = true) ->
  (forall a b w, cop a b = Ok w -> is_inexact w = true) ->
  (forall n, x <> NInt n) ->
  num_binop iop fop cop x y = Ok v -> is_inexact v = true.
Proof.
  intros Hf Hc Hx.
  destruct x, y; try (now destruct (Hx n));
    cbn [num_binop to_float to_complex result_bind];
    split_conversions; eauto; discriminate.
Qed.

Lemma py_add_no_ValueError x y : py_add x y <> Raise ValueError.
Proof.
  unfold py_add. destruct (as_num x), (as_num y);
    try (apply num_binop_no_ValueError; discriminate);
    destruct x, y; discriminate.
Qed.

Lemma py_sub_no_ValueError x y : py_sub x y <> Raise ValueError.
Proof.
  unfold py_sub. destruct (as_num x), (as_num y);
    try (apply num_binop_no_ValueError; discriminate); discriminate.
Qed.

Lemma py_mul_no_ValueError x y : py_mul x y <> Raise ValueError.
Proof.
  unfold py_mul. destruct (as_num x) eqn:Ex, (as_num y) eqn:Ey;
    try (apply num_binop_no_ValueError; discriminate);
    destruct x, y; try discriminate; cbn [as_int];
    apply str_repeat_no_ValueError.
Qed.

Lemma py_truediv_no_ValueError x y : py_truediv x y <> Raise ValueError.
Proof.
  unfold py_truediv. destruct (as_num x), (as_num y); try discriminate.
  apply num_binop_no_ValueError; intros a b.
  - destruct (b =? 0); [ discriminate | ].
    destruct (F64.of_quotient a b); discriminate.
  - destruct (F64.is_zero b); discriminate.
  - destruct (Cx.quot a b); discriminate.
Qed.

Lemma py_truediv_inexact x y v : py_truediv x y = Ok v -> is_inexact v = true.
Proof.
  unfold py_truediv. destruct (as_num x), (as_num y); try discriminate.
  apply num_binop_inexact; intros a b w.
  - destruct (b =? 0); [ discriminate | ].
    destruct (F64.of_quotient a b); intros [= <-]; reflexivity.
  - destruct (F64.is_zero b); intros [= <-]; reflexivity.
  - destruct (Cx.quot a b); intros [= <-]; reflexivity.
Qed.

Lemma inexact_as_num x :
  is_inexact x = true ->
  exists a, as_num x = Some a /\ forall n, a <> NInt n.
Proof. destruct x; try discriminate; intros _; eexists; split; eauto; discriminate. Qed.

Lemma py_sub_inexact x y v :
  is_inexact x = true -> py_sub x y = Ok v -> is_inexact v = true.
Proof.
  intros Hx. destruct (inexact_as_num x Hx) as (a & Ea & Ha).
  unfold py_sub. rewrite Ea. destruct (as_num y); [ | discriminate ].
  apply num_binop_inexact_l; trivial; intros ? ? ? [= <-]; reflexivity.
Qed.

Lemma py_mul_inexact x y v :
  is_inexact x = true -> py_mul x y = Ok v -> is_inexact v = true.
Proof.
  intros Hx. destruct (inexact_as_num x Hx) as (a & Ea & Ha).
  unfold py_mul. rewrite Ea. destruct (as_num y).
  - apply num_binop_inexact_l; trivial; intros ? ? ? [= <-]; reflexivity.
  - destruct x; try discriminate; destruct y; discriminate.
Qed.

(** The operand handed to [math.sqrt] is a float or a complex number, and
    nothing before the square root raises [ValueError]. *)
Lemma heron_radicand_outcome a b c :
  match heron_radicand a b c with
  | Ok v => is_inexact v = true
  | Raise e => e <> ValueError
  end.
Proof.
  unfold heron_radicand, side_sum.
  destruct (py_add a b) as [ab | e] eqn:E1; cbn [result_bind];
    [ | intros ->; now apply py_add_no_ValueError in E1 ].
  destruct (py_add ab c) as [p | e] eqn:E2; cbn [result_bind];
    [ | intros ->; now apply py_add_no_ValueError in E2 ].
  destruct (py_truediv p (VInt 2)) as [s | e] eqn:E3; cbn [result_bind];
    [ | intros ->; now apply py_truediv_no_ValueError in E3 ].
  pose proof (py_truediv_inexact _ _ _ E3) as Hs.
  destruct (py_sub s a) as [sa | e] eqn:E4; cbn [result_bind];
    [ | intros ->; now apply py_sub_no_ValueError in E4 ].
  destruct (py_mul s sa) as [p1 | e] eqn:E5; cbn [result_bind];
    [ | intros ->; now apply py_mul_no_ValueError in E5 ].
  pose proof (py_mul_inexact _ _ _ Hs E5) as Hp1.
  destruct (py_sub s b) as [sb | e] eqn:E6; cbn [result_bind];
    [ | intros ->; now apply py_sub_no_ValueError in E6 ].
  destruct (py_mul p1 sb) as [p2 | e] eqn:E7; cbn [result_bind];
    [ | intros ->; now apply py_mul_no_ValueError in E7 ].
  pose proof (py_mul_inexact _ _ _ Hp1 E7) as Hp2.
  destruct (py_sub s c) as [sc | e] eqn:E8; cbn [result_bind];
    [ | intros ->; now apply py_sub_no_ValueError in E8 ].
  destruct (py_mul p2 sc) as [p3 | e] eqn:E9;
    [ | intros ->; now apply py_mul_no_ValueError in E9 ].
  exact (py_mul_inexact _ _ _ Hp2 E9).
Qed.

(** [area()] raises [ValueError] exactly when the operand of the square
    root is a double below zero. *)
Lemma heron_ValueError a b c :
  heron_formula a b c = Raise ValueError <->
  exists x, heron_radicand a b c = Ok (VFloat x) /\ F64.ltb x F64.zero = true.
Proof.
  unfold heron_formula. pose proof (heron_radicand_outcome a b c) as H.
  destruct (heron_radicand a b c) as [v | e]; cbn [result_bind].
  - destruct v as [ | ? | ? | x | re im | ? ]; try discriminate.
    + rewrite math_sqrt_float. split.
      * destruct (F64.ltb x F64.zero) eqn:E; [ eauto | discriminate ].
      * intros (x' & [= <-] & ->). reflexivity.
    + split; [ discriminate | intros (x' & [=] & _) ].
  - split; [ intros [= ->]; now destruct H | intros (x' & [=] & _) ].
Qed.

(** ** Formulas *)

Lemma same_outcome_refl x :
  (forall v, x = Ok v -> has_nan v = false) -> same_outcome x x.
Proof.
  intros H. destruct x as [v | e]; simpl; [ | reflexivity ].
  rewrite py_eq_refl, (H v eq_refl). reflexivity.
Qed.

Lemma py_mul_2_pi :
  py_mul (VInt 2) math.pi = Ok (VFloat (S754_finite false 7074237752028440 (-50))).
Proof. reflexivity. Qed.

Lemma is_nan_false x : x <> S754_nan -> F64.is_nan x = false.
Proof. destruct x; trivial. intros H. now destruct H. Qed.

(** A radius that compares [>= 0] is a real number that is not a NaN. *)
Lemma py_ge_0_cases r :
  py_ge r (VInt 0) = Ok true ->
  (exists n, as_num r = Some (NInt n) /\ 0 <= n /\ is_inexact r = false) \/
  (exists f, r = VFloat f /\ f <> S754_nan).
Proof.
  destruct r as [ | b | n | f | re im | s]; unfold py_ge; cbn [as_num];
    try discriminate.
  - intros _. left. exists (Z.b2z b). destruct b; simpl; auto with zarith.
  - intros [= H]. left. exists n. apply Z.leb_le in H. auto.
  - intros [= H]. right. exists f. split; [ reflexivity | ].
    intros ->. discriminate.
Qed.

(** A float times a real number that is not a NaN: the number is
    converted to a double that is not a NaN, or cannot be converted. *)
Lemma float_times_real r :
  has_nan r = false -> is_number r = true ->
  (forall re im, r <> VComplex re im) ->
  (exists f, f <> S754_nan /\
     forall t, py_mul (VFloat t) r = Ok (VFloat (F64.mul t f))) \/
  (forall t, py_mul (VFloat t) r = Raise OverflowError).
Proof.
  intros Hn Hr Hcx. number_cases Hr; try (now destruct (Hcx _ _ eq_refl)).
  - destruct (float_of_int_outcome (Z.b2z x)) as [E | E].
    + left. exists (F64.of_Z (Z.b2z x)).
      split; [ exact (float_of_int_not_nan _ _ E) | ].
      intros t. arith_unfold. now rewrite E.
    + right. intros t. arith_unfold. now rewrite E.
  - destruct (float_of_int_outcome x) as [E | E].
    + left. exists (F64.of_Z x).
      split; [ exact (float_of_int_not_nan _ _ E) | ].
      intros t. arith_unfold. now rewrite E.
    + right. intros t. arith_unfold. now rewrite E.
  - left. exists x. split; [ intros ->; discriminate | reflexivity ].
Qed.

(** ** Exact arithmetic on small integers *)

Lemma Zdigits2_lower x : 0 < x -> 2 ^ (Zdigits2 x - 1) <= x.
Proof.
  destruct x as [ | p | p]; try lia. intros _. simpl.
  apply digits2_pos_bounds.
Qed.

Lemma Zdigits2_eq x k : 2 ^ (k - 1) <= x < 2 ^ k -> 1 <= k -> Zdigits2 x = k.
Proof.
  intros [Hlo Hhi] Hk.
  assert (0 < x) by (pose proof (Z.pow_pos_nonneg 2 (k - 1)); lia).
  pose proof (Zdigits2_le x k ltac:(lia) ltac:(lia)).
  pose proof (Zdigits2_gt x (k - 1) ltac:(lia) Hlo). lia.
Qed.

Lemma Zdigits2_pos x : 0 < x -> 1 <= Zdigits2 x.
Proof. destruct x; simpl; lia. Qed.

Lemma div_pow2_lower m d k :
  2 ^ (d - 1) <= m -> 0 <= k <= d - 1 -> 2 ^ (d - 1 - k) <= m / 2 ^ k.
Proof.
  intros Hm Hk. apply Z.div_le_lower_bound.
  - apply Z.pow_pos_nonneg; lia.
  - rewrite <- Z.pow_add_r by lia. now replace (k + (d - 1 - k)) with (d - 1) by lia.
Qed.

(** Rounding a number within the range of the normal and subnormal
    doubles gives a finite double of the same sign, next to it in
    magnitude. *)
Lemma binary_round_aux_finite s m e l :
  0 < m -> -1074 < Zdigits2 m + e -> Zdigits2 m + e <= 1022 -> e <= 971 ->
  exists m' e',
    binary_round_aux 53 1024 s m e l = S754_finite s m' e' /\
    e <= e' /\ -1074 <= e' /\ Zdigits2 (Zpos m') <= 53 /\
    Zdigits2 m + e <= Zdigits2 (Zpos m') + e' <= Zdigits2 m + e + 1.
Proof.
  intros Hm Hlo Hhi He.
  destruct (binary_round_aux_shape 53 1024 s m e l ltac:(lia)) as (m1' & Hm1' & Heq).
  cbv zeta in Heq. rewrite Heq. clear Heq.
  set (d := Zdigits2 m) in *.
  pose proof (Zdigits2_pos m Hm) as Hd. fold d in Hd.
  pose proof (Zdigits2_lower m Hm) as Hml. fold d in Hml.
  pose proof (Zdigits2_upper m ltac:(lia)) as Hmu. fold d in Hmu.
  unfold fexp, emin in Hm1' |- *.
  change (3 - 1024 - 53) with (-1074) in Hm1' |- *.
  set (k1 := Z.max 0 (Z.max (d + e - 53) (-1074) - e)) in *.
  assert (0 <= k1 <= d - 1) as Hk1 by (unfold k1; lia).
  assert (d - k1 <= 53) as Hd1 by (unfold k1; lia).
  assert (-1074 <= e + k1) as He1 by (unfold k1; lia).
  pose proof (div_pow2_lower m d k1 Hml Hk1) as Hl1.
  pose proof (div_pow2_bound m d k1 ltac:(lia) ltac:(lia) ltac:(lia)) as [_ Hu1].
  rewrite Z.max_r in Hu1 by lia.
  set (m1 := m / 2 ^ k1) in *. set (e1 := e + k1) in *.
  set (d1 := d - k1) in *.
  replace (d - 1 - k1) with (d1 - 1) in Hl1 by (unfold d1; lia).
  assert (0 < 2 ^ (d1 - 1)) as Hp by (apply Z.pow_pos_nonneg; lia).
  assert (2 ^ d1 = 2 * 2 ^ (d1 - 1)) as Hpow.
  { rewrite <- Z.pow_succ_r by lia. f_equal. lia. }
  destruct (Z.eq_dec m1' (2 ^ d1)) as [Htop | Hnot].
  - (* the rounding carried into the next binade *)
    assert (Zdigits2 m1' = d1 + 1) as Hdig.
    { apply Zdigits2_eq; [ | lia ].
      replace (d1 + 1 - 1) with d1 by lia. rewrite Htop.
      rewrite Z.pow_add_r by lia. change (2 ^ 1) with 2. lia. }
    rewrite Hdig.
    destruct (Z.eq_dec d1 53) as [H53 | H53].
    + replace (Z.max 0 (Z.max (d1 + 1 + e1 - 53) (-1074) - e1)) with 1 by lia.
      rewrite Htop, H53. change (2 ^ 53 / 2 ^ 1) with (Zpos (2 ^ 52)).
      change (1024 - 53) with 971.
      assert (e1 + 1 <= 971) as Hfin by (unfold e1, d1 in *; lia).
      apply Z.leb_le in Hfin. rewrite Hfin.
      eexists _, _. split; [ reflexivity | ].
      change (Zdigits2 (Zpos (2 ^ 52))) with 53. unfold e1, d1 in *. lia.
    + replace (Z.max 0 (Z.max (d1 + 1 + e1 - 53) (-1074) - e1)) with 0 by lia.
      rewrite Z.pow_0_r, Z.div_1_r.
      destruct m1' as [ | p | p]; try lia.
      change (1024 - 53) with 971.
      assert (e1 + 0 <= 971) as Hfin by (unfold e1, d1, k1 in *; lia).
      apply Z.leb_le in Hfin. rewrite Hfin.
      eexists _, _. split; [ reflexivity | ].
      rewrite Hdig. unfold e1, d1 in *. lia.
  - assert (Zdigits2 m1' = d1) as Hdig by (apply Zdigits2_eq; lia).
    rewrite Hdig.
    replace (Z.max 0 (Z.max (d1 + e1 - 53) (-1074) - e1)) with 0 by lia.
    rewrite Z.pow_0_r, Z.div_1_r.
    destruct m1' as [ | p | p]; try lia.
    change (1024 - 53) with 971.
    assert (e1 + 0 <= 971) as Hfin by (unfold e1, d1, k1 in *; lia).
    apply Z.leb_le in Hfin. rewrite Hfin.
    eexists _, _. split; [ reflexivity | ].
    rewrite Hdig. unfold e1, d1 in *. lia.
Qed.

Lemma digits_iter_xO m k :
  Zpos (digits2_pos (Pos.iter xO m k)) = Zpos (digits2_pos m) + Zpos k.
Proof.
  change (Zdigits2 (Zpos (Pos.iter xO m k)) = Zpos (digits2_pos m) + Zpos k).
  pose proof (digits2_pos_bounds m) as [Hl Hu].
  assert (0 < 2 ^ Zpos k) by (apply Z.pow_pos_nonneg; lia).
  apply Zdigits2_eq; [ | lia ]. rewrite iter_xO. split.
  - replace (Zpos (digits2_pos m) + Zpos k - 1)
      with (Zpos (digits2_pos m) - 1 + Zpos k) by lia.
    rewrite Z.pow_add_r by lia. apply Z.mul_le_mono_nonneg_r; lia.
  - rewrite Z.pow_add_r by lia. apply Z.mul_lt_mono_pos_r; lia.
Qed.

Lemma binary_round_finite s m e :
  -1074 < Zpos (digits2_pos m) + e -> Zpos (digits2_pos m) + e <= 1022 ->
  e <= 971 ->
  exists m' e',
    binary_round 53 1024 s m e = S754_finite s m' e' /\
    e - 52 <= e' /\ -1074 <= e' /\ Zdigits2 (Zpos m') <= 53 /\
    Zpos (digits2_pos m) + e <= Zdigits2 (Zpos m') + e'
      <= Zpos (digits2_pos m) + e + 1.
Proof.
  intros Hlo Hhi He. unfold binary_round, shl_align.
  unfold fexp, emin. change (3 - 1024 - 53) with (-1074).
  set (d := Zpos (digits2_pos m)) in *.
  assert (Zdigits2 (Zpos m) = d) as Hd by reflexivity.
  destruct (Z.max (d + e - 53) (-1074) - e) as [ | k | k] eqn:E.
  - destruct (binary_round_aux_finite s (Zpos m) e loc_Exact)
      as (m' & e' & -> & ?); try lia.
    exists m', e'. split; [ reflexivity | lia ].
  - destruct (binary_round_aux_finite s (Zpos m) e loc_Exact)
      as (m' & e' & -> & ?); try lia.
    exists m', e'. split; [ reflexivity | lia ].
  - assert (Zdigits2 (Zpos (Pos.iter xO m k)) = d + Zpos k) as Hdk
        by apply digits_iter_xO.
    destruct (binary_round_aux_finite s (Zpos (Pos.iter xO m k))
                (Z.max (d + e - 53) (-1074)) loc_Exact)
      as (m' & e' & -> & ?); try lia.
    exists m', e'. split; [ reflexivity | lia ].
Qed.

(** A mantissa that already fits is left alone. *)
Lemma binary_round_aux_exact s p e :
  fexp 53 1024 (Zdigits2 (Zpos p) + e) <= e -> e <= 971 ->
  binary_round_aux 53 1024 s (Zpos p) e loc_Exact = S754_finite s p e.
Proof.
  intros Hc He. unfold binary_round_aux, shr_fexp.
  cbn [shr_record_of_loc].
  destruct (fexp 53 1024 (Zdigits2 (Zpos p) + e) - e) as [ | k | k] eqn:E;
    try lia; cbn [shr loc_of_shr_record shr_m round_nearest_even
                  shr_record_of_loc]; rewrite E; cbn [shr shr_m];
    change (1024 - 53) with 971; apply Z.leb_le in He; now rewrite He.
Qed.

(** An even mantissa one bit too long loses its last bit exactly. *)
Lemma binary_round_aux_exact_half s p e :
  fexp 53 1024 (Zdigits2 (Zpos p~0) + e) = e + 1 -> e + 1 <= 971 ->
  binary_round_aux 53 1024 s (Zpos p~0) e loc_Exact = S754_finite s p (e + 1).
Proof.
  intros Hc He. unfold binary_round_aux, shr_fexp.
  cbn [shr_record_of_loc]. rewrite Hc.
  replace (e + 1 - e) with 1 by lia.
  cbn [shr SpecFloat.iter_pos shr_1 loc_of_shr_record shr_m
       round_nearest_even shr_record_of_loc orb].
  assert (Zdigits2 (Zpos p) + (e + 1) = Zdigits2 (Zpos p~0) + e) as ->.
  { simpl Zdigits2. rewrite Pos2Z.inj_succ. lia. }
  rewrite Hc, Z.sub_diag. cbn [shr shr_m].
  change (1024 - 53) with 971. apply Z.leb_le in He. now rewrite He.
Qed.

(** The double of a positive integer below [2 ^ 53] is that integer. *)
Lemma of_Z_exact a :
  0 < a < 2 ^ 53 ->
  exists m e, F64.of_Z a = S754_finite false m e /\
    -53 < e <= 0 /\ Zpos m = a * 2 ^ (- e) /\ Zdigits2 (Zpos m) = 53.
Proof.
  intros [H0 Hu]. destruct a as [ | p | p]; try lia.
  unfold F64.of_Z, F64.prec, F64.emax. cbn [binary_normalize].
  unfold binary_round, shl_align.
  pose proof (Zdigits2_le (Zpos p) 53 ltac:(lia) ltac:(lia)) as Hd.
  change (Zdigits2 (Zpos p)) with (Zpos (digits2_pos p)) in Hd.
  set (d := Zpos (digits2_pos p)) in *.
  assert (fexp 53 1024 (d + 0) = d - 53) as Hf.
  { rewrite fexp64. lia. }
  rewrite Hf.
  destruct (d - 53 - 0) as [ | k | k] eqn:E; try lia.
  - rewrite binary_round_aux_exact.
    + exists p, 0. repeat split; try lia. change (Zdigits2 (Zpos p)) with d. lia.
    + change (Zdigits2 (Zpos p)) with d. rewrite Hf. lia.
    + lia.
  - assert (Zdigits2 (Zpos (Pos.iter xO p k)) = 53) as Hdk.
    { change (Zpos (digits2_pos (Pos.iter xO p k)) = 53).
      rewrite digits_iter_xO. fold d. lia. }
    rewrite binary_round_aux_exact.
    + exists (Pos.iter xO p k), (d - 53). repeat split; try lia.
      rewrite iter_xO. f_equal. f_equal. lia.
    + rewrite Hdk, fexp64. lia.
    + lia.
Qed.

(** Half of a positive integer below [2 ^ 53] is a double. *)
Lemma of_quotient_2_exact P :
  0 < P < 2 ^ 53 ->
  exists m e, F64.of_quotient P 2 = S754_finite false m e /\
    -54 < e <= -1 /\ Zpos m = P * 2 ^ (- 1 - e) /\ Zdigits2 (Zpos m) = 53.
Proof.
  intros [H0 Hu]. unfold F64.of_quotient.
  assert ((P =? 0) = false) as -> by (apply Z.eqb_neq; lia).
  assert ((P <? 0) = false) as -> by (apply Z.ltb_ge; lia).
  change (xorb false (2 <? 0)) with false.
  rewrite (Z.abs_eq P) by lia. change (Z.abs 2) with 2.
  unfold SFdiv_core_binary, F64.prec, F64.emax.
  pose proof (Zdigits2_le P 53 ltac:(lia) ltac:(lia)) as Hd.
  pose proof (Zdigits2_pos P H0) as Hd1.
  pose proof (Zdigits2_lower P H0) as Hl.
  pose proof (Zdigits2_upper P ltac:(lia)) as Hup.
  set (d := Zdigits2 P) in *.
  change (Zdigits2 2) with 2.
  rewrite fexp64.
  replace (Z.min (Z.max (d + 0 - (2 + 0) - 53) (-1074)) (0 - 0)) with (d - 55) by lia.
  replace (0 - 0 - (d - 55)) with (55 - d) by lia.
  destruct (55 - d) as [ | k | k] eqn:E; try lia.
  rewrite Z.shiftl_mul_pow2 by lia.
  assert (0 < 2 ^ (Zpos k - 1)) as Hp by (apply Z.pow_pos_nonneg; lia).
  assert (2 ^ Zpos k = 2 * 2 ^ (Zpos k - 1)) as Hpow.
  { rewrite <- Z.pow_succ_r by lia. f_equal. lia. }
  set (M := P * 2 ^ (Zpos k - 1)).
  assert (P * 2 ^ Zpos k = 2 * M) as HM by (unfold M; rewrite Hpow; ring).
  rewrite HM.
  assert (Z.div_eucl (2 * M) 2 = (M, 0)) as ->.
  { pose proof (Z.div_eucl_eq (2 * M) 2 ltac:(lia)) as Heq.
    pose proof (Z.mod_pos_bound (2 * M) 2 ltac:(lia)) as Hb.
    unfold Z.modulo in Hb.
    destruct (Z.div_eucl (2 * M) 2) as [q r]. f_equal; lia. }
  change (new_location 2 0) with loc_Exact.
  assert (0 < 2 ^ (53 - d)) as Hp' by (apply Z.pow_pos_nonneg; lia).
  set (M' := P * 2 ^ (53 - d)).
  assert (M = 2 * M') as HM'.
  { unfold M, M'. replace (Zpos k - 1) with (Z.succ (53 - d)) by lia.
    rewrite Z.pow_succ_r by lia. ring. }
  rewrite HM'. clear HM HM' M.
  assert (2 ^ 52 <= M' < 2 ^ 53) as HMb.
  { unfold M'. split.
    - replace 52 with (d - 1 + (53 - d)) by lia.
      rewrite Z.pow_add_r by lia.
      apply Z.mul_le_mono_nonneg_r; [ lia | exact Hl ].
    - replace 53 with (d + (53 - d)) at 2 by lia.
      rewrite Z.pow_add_r by lia.
      apply Z.mul_lt_mono_pos_r; [ lia | exact Hup ]. }
  destruct M' as [ | pm | pm] eqn:EM; try lia.
  change (2 * Zpos pm) with (Zpos pm~0).
  assert (Zdigits2 (Zpos pm) = 53) as Hdm by (apply Zdigits2_eq; [ exact HMb | lia ]).
  assert (Zdigits2 (Zpos pm~0) = 54) as Hdm2.
  { simpl Zdigits2 in *. rewrite Pos2Z.inj_succ. lia. }
  rewrite binary_round_aux_exact_half.
  - exists pm, (d - 55 + 1). repeat split; try lia.
    rewrite <- EM. f_equal. f_equal. lia.
  - rewrite Hdm2, fexp64. lia.
  - lia.
Qed.

Lemma shl_align_value m e e' :
  e' <= e -> Zpos (fst (shl_align m e e')) = Zpos m * 2 ^ (e - e').
Proof.
  intros H. unfold shl_align.
  destruct (e' - e) as [ | k | k] eqn:E; try lia; cbn [fst].
  - replace (e - e') with 0 by lia. lia.
  - rewrite iter_xO. f_equal. f_equal. lia.
Qed.

Lemma sgn_mul_pow2 a k : 0 <= k -> Z.sgn (a * 2 ^ k) = Z.sgn a.
Proof.
  intros Hk. rewrite Z.sgn_mul, (Z.sgn_pos (2 ^ k)), Z.mul_1_r; trivial.
  apply Z.pow_pos_nonneg; lia.
Qed.

Lemma in_range_weaken B B' x : B <= B' -> in_range B x -> in_range B' x.
Proof. intros H. destruct x; simpl; trivial. lia. Qed.

Lemma cond_Zopp_scale s m t :
  cond_Zopp s (m * t) = cond_Zopp s m * t.
Proof. destruct s; simpl; ring. Qed.

Lemma abs_diff_bound sx sy u v X :
  0 < u < X -> 0 < v < X ->
  Z.abs (cond_Zopp sx u - cond_Zopp sy v) < X * 2.
Proof. intros Hu Hv. destruct sx, sy; simpl; lia. Qed.

(** The difference of two doubles in range: its sign is that of the exact
    difference, and it is in range again. *)
Lemma F64_sub_spec B x y :
  0 <= B <= 900 -> in_range B x -> in_range B y ->
  in_range (B + 53) (F64.sub x y) /\
  fsign (F64.sub x y) = Z.sgn (scaled x - scaled y).
Proof.
  intros HB Hx Hy.
  destruct x as [sx | sx | | sx mx ex]; try contradiction;
    destruct y as [sy | sy | | sy my ey]; try contradiction.
  - split; [ now destruct sx, sy | now destruct sx, sy ].
  - cbn [F64.sub SFsub in_range fsign scaled] in *. unfold F64.sub. cbn [SFsub in_range fsign].
    split; [ lia | ].
    rewrite Z.sub_0_l, Z.sgn_opp, sgn_mul_pow2 by lia. now destruct sy.
  - unfold F64.sub. cbn [SFsub in_range fsign scaled] in *.
    split; [ lia | ].
    rewrite Z.sub_0_r, sgn_mul_pow2 by lia. now destruct sx.
  - unfold F64.sub, F64.prec, F64.emax. cbn [SFsub in_range scaled] in *.
    destruct Hx as (Hex & Hdx & Hmx). destruct Hy as (Hey & Hdy & Hmy).
    set (ez := Z.min ex ey).
    pose proof (shl_align_value mx ex ez ltac:(lia)) as Vx.
    pose proof (shl_align_value my ey ez ltac:(lia)) as Vy.
    set (mx' := fst (shl_align mx ex ez)) in *.
    set (my' := fst (shl_align my ey ez)) in *.
    set (D := cond_Zopp sx (Zpos mx') - cond_Zopp sy (Zpos my')).
    assert (scaled (S754_finite sx mx ex) - scaled (S754_finite sy my ey)
            = D * 2 ^ (ez + 1075)) as HD.
    { unfold D. cbn [scaled]. rewrite Vx, Vy, !cond_Zopp_scale.
      rewrite Z.mul_sub_distr_r, <- !Z.mul_assoc, <- !Z.pow_add_r by lia.
      f_equal; f_equal; f_equal; lia. }
    cbn [scaled] in HD. rewrite HD, sgn_mul_pow2 by lia.
    pose proof (digits2_pos_bounds mx) as [_ Hux].
    pose proof (digits2_pos_bounds my) as [_ Huy].
    change (Zpos (digits2_pos mx)) with (Zdigits2 (Zpos mx)) in Hux.
    change (Zpos (digits2_pos my)) with (Zdigits2 (Zpos my)) in Huy.
    pose proof (Zdigits2_pos (Zpos mx) ltac:(lia)) as Px.
    pose proof (Zdigits2_pos (Zpos my) ltac:(lia)) as Py.
    assert (Z.abs D < 2 ^ (B - ez + 1)) as HDb.
    { assert (Zpos mx' < 2 ^ (B - ez)) as Hbx.
      { rewrite Vx. apply Z.lt_le_trans with (2 ^ Zdigits2 (Zpos mx) * 2 ^ (ex - ez)).
        - apply Z.mul_lt_mono_pos_r; [ apply Z.pow_pos_nonneg; lia | exact Hux ].
        - rewrite <- Z.pow_add_r by (pose proof (Zdigits2_nonneg (Zpos mx)); lia).
          apply Z.pow_le_mono_r; lia. }
      assert (Zpos my' < 2 ^ (B - ez)) as Hby.
      { rewrite Vy. apply Z.lt_le_trans with (2 ^ Zdigits2 (Zpos my) * 2 ^ (ey - ez)).
        - apply Z.mul_lt_mono_pos_r; [ apply Z.pow_pos_nonneg; lia | exact Huy ].
        - rewrite <- Z.pow_add_r by (pose proof (Zdigits2_nonneg (Zpos my)); lia).
          apply Z.pow_le_mono_r; lia. }
      rewrite Z.pow_add_r by lia. change (2 ^ 1) with 2.
      unfold D. apply abs_diff_bound; split; trivial; apply Pos2Z.is_pos. }
    assert (Zdigits2 (Z.abs D) <= B - ez + 1) as HDd.
    { apply Zdigits2_le; lia. }
    destruct D as [ | p | p] eqn:ED; cbn [binary_normalize];
      try change (Zdigits2 (Z.abs (Zpos p))) with (Zpos (digits2_pos p)) in HDd;
      try change (Zdigits2 (Z.abs (Zneg p))) with (Zpos (digits2_pos p)) in HDd.
    + split; simpl; trivial.
    + destruct (binary_round_finite false p ez) as (m' & e' & -> & He' & ? & ? & ?);
        try lia.
      split; [ cbn [in_range]; lia | reflexivity ].
    + destruct (binary_round_finite true p ez) as (m' & e' & -> & He' & ? & ? & ?);
        try lia.
      split; [ cbn [in_range]; lia | reflexivity ].
Qed.

(** The product of two doubles in range: the signs multiply, and it is
    in_range again. *)
Lemma F64_mul_spec B1 B2 x y :
  0 <= B1 -> 0 <= B2 -> B1 + B2 <= 900 -> in_range B1 x -> in_range B2 y ->
  in_range (B1 + B2 + 1) (F64.mul x y) /\
  fsign (F64.mul x y) = fsign x * fsign y.
Proof.
  intros H1 H2 HB Hx Hy.
  destruct x as [sx | sx | | sx mx ex]; try contradiction;
    destruct y as [sy | sy | | sy my ey]; try contradiction;
    try (split; [ exact I | simpl; now destruct sx ]).
  unfold F64.mul, F64.prec, F64.emax. cbn [SFmul in_range fsign] in *.
  destruct Hx as (Hex & Hdx & Hmx). destruct Hy as (Hey & Hdy & Hmy).
  pose proof (digits2_pos_bounds mx) as [_ Hux].
  pose proof (digits2_pos_bounds my) as [_ Huy].
  change (Zpos (digits2_pos mx)) with (Zdigits2 (Zpos mx)) in Hux.
  change (Zpos (digits2_pos my)) with (Zdigits2 (Zpos my)) in Huy.
  pose proof (Zdigits2_pos (Zpos mx) ltac:(lia)) as Px.
  pose proof (Zdigits2_pos (Zpos my) ltac:(lia)) as Py.
  assert (Zdigits2 (Zpos (mx * my)) <= Zdigits2 (Zpos mx) + Zdigits2 (Zpos my)) as Hd.
  { apply Zdigits2_le; [ | lia ]. split; [ lia | ].
    rewrite Pos2Z.inj_mul, Z.pow_add_r by lia. nia. }
  pose proof (Zdigits2_pos (Zpos (mx * my)) ltac:(lia)) as Pm.
  destruct (binary_round_aux_finite (xorb sx sy) (Zpos (mx * my)) (ex + ey) loc_Exact)
    as (m' & e' & -> & ? & ? & ? & ?); try lia.
  split; [ cbn [in_range]; lia | ].
  cbn [fsign]. now destruct sx, sy.
Qed.

Lemma ltb_fsign B x : in_range B x -> F64.ltb x F64.zero = (fsign x =? -1).
Proof.
  destruct x as [s | s | | s m e]; try contradiction; intros _.
  - reflexivity.
  - now destruct s.
Qed.

Lemma fsign_zero B x : in_range B x -> fsign x = 0 -> exists s, x = S754_zero s.
Proof.
  destruct x as [s | s | | s m e]; try contradiction; intros _.
  - eauto.
  - now destruct s.
Qed.

Lemma of_Z_in_range a :
  0 <= a < 2 ^ 53 ->
  in_range 54 (F64.of_Z a) /\ scaled (F64.of_Z a) = a * 2 ^ 1075.
Proof.
  intros [H0 Hu]. destruct (Z.eq_dec a 0) as [-> | Hne].
  - split; [ exact I | reflexivity ].
  - destruct (of_Z_exact a ltac:(lia)) as (m & e & -> & He & Hm & Hd).
    split; [ cbn [in_range]; lia | ].
    cbn [scaled cond_Zopp]. rewrite Hm, <- Z.mul_assoc, <- Z.pow_add_r by lia.
    f_equal. f_equal. lia.
Qed.

Lemma half_in_range P :
  0 <= P < 2 ^ 53 ->
  in_range 54 (F64.of_quotient P 2) /\
  scaled (F64.of_quotient P 2) = P * 2 ^ 1074 /\
  fsign (F64.of_quotient P 2) = Z.sgn P.
Proof.
  intros [H0 Hu]. destruct (Z.eq_dec P 0) as [-> | Hne].
  - repeat split.
  - destruct (of_quotient_2_exact P ltac:(lia)) as (m & e & -> & He & Hm & Hd).
    split; [ cbn [in_range]; lia | ]. split.
    + cbn [scaled cond_Zopp]. rewrite Hm, <- Z.mul_assoc, <- Z.pow_add_r by lia.
      f_equal. f_equal. lia.
    + cbn [fsign]. symmetry. apply Z.sgn_pos. lia.
Qed.

Lemma py_truediv_int_2 P :
  0 <= P < 2 ^ 53 ->
  py_truediv (VInt P) (VInt 2) = Ok (VFloat (F64.of_quotient P 2)).
Proof.
  intros H. destruct (half_in_range P H) as (Hb & _).
  unfold py_truediv. cbn [as_num num_binop].
  change (2 =? 0) with false. cbv iota.
  destruct (F64.of_quotient P 2); try reflexivity. contradiction.
Qed.

Lemma py_sub_float_int x a :
  0 <= a < 2 ^ 53 ->
  py_sub (VFloat x) (VInt a) = Ok (VFloat (F64.sub x (F64.of_Z a))).
Proof.
  intros H. unfold py_sub. cbn [as_num num_binop to_float result_bind].
  rewrite float_of_int_below; [ reflexivity | ].
  pose proof (pow2_le_mono 53 1023 ltac:(lia)). lia.
Qed.

(** The operand of the square root for integer sides in the range where
    doubles are exact: a in_range double whose sign is the sign of
    [(a+b+c)(b+c-a)(a+c-b)(a+b-c)]. *)
Lemma heron_radicand_int a b c :
  0 <= a -> 0 <= b -> 0 <= c -> a + b + c < 2 ^ 53 ->
  exists x, heron_radicand (VInt a) (VInt b) (VInt c) = Ok (VFloat x) /\
    in_range 400 x /\
    fsign x = Z.sgn (a + b + c) * Z.sgn (b + c - a) * Z.sgn (a + c - b)
              * Z.sgn (a + b - c).
Proof.
  intros Ha Hb Hc HP. set (P := a + b + c).
  unfold heron_radicand, side_sum.
  change (py_add (VInt a) (VInt b)) with (Ok (VInt (a + b))). cbn [result_bind].
  change (py_add (VInt (a + b)) (VInt c)) with (Ok (VInt P)). cbn [result_bind].
  rewrite py_truediv_int_2 by (unfold P; lia). cbn [result_bind].
  destruct (half_in_range P ltac:(unfold P; lia)) as (BS & VS & SS).
  set (S := F64.of_quotient P 2) in *.
  assert (2 ^ 1075 = 2 * 2 ^ 1074) as Hpow by (now rewrite <- Z.pow_succ_r by lia).
  assert (forall k, 0 <= k -> k <= P -> exists d,
            py_sub (VFloat S) (VInt k) = Ok (VFloat d) /\ in_range 107 d /\
            fsign d = Z.sgn (P - 2 * k)) as Hside.
  { intros k Hk0 HkP.
    rewrite py_sub_float_int by (unfold P in *; lia).
    destruct (of_Z_in_range k ltac:(unfold P in *; lia)) as (BA & VA).
    destruct (F64_sub_spec 54 S (F64.of_Z k) ltac:(lia) BS BA) as (Bd & Sd).
    eexists. split; [ reflexivity | ]. split; [ exact Bd | ].
    rewrite Sd, VS, VA, Hpow.
    replace (P * 2 ^ 1074 - k * (2 * 2 ^ 1074)) with ((P - 2 * k) * 2 ^ 1074) by ring.
    apply sgn_mul_pow2. lia. }
  destruct (Hside a Ha ltac:(unfold P; lia)) as (sa & -> & Bsa & Ssa).
  cbn [result_bind].
  change (py_mul (VFloat S) (VFloat sa)) with (Ok (VFloat (F64.mul S sa))).
  cbn [result_bind].
  destruct (F64_mul_spec 54 107 S sa ltac:(lia) ltac:(lia) ltac:(lia) BS Bsa)
    as (Bp1 & Sp1).
  destruct (Hside b Hb ltac:(unfold P; lia)) as (sb & -> & Bsb & Ssb).
  cbn [result_bind].
  change (py_mul (VFloat (F64.mul S sa)) (VFloat sb))
    with (Ok (VFloat (F64.mul (F64.mul S sa) sb))).
  cbn [result_bind].
  destruct (F64_mul_spec (54 + 107 + 1) 107 _ sb ltac:(lia) ltac:(lia) ltac:(lia) Bp1 Bsb)
    as (Bp2 & Sp2).
  destruct (Hside c Hc ltac:(unfold P; lia)) as (sc & -> & Bsc & Ssc).
  cbn [result_bind].
  change (py_mul (VFloat (F64.mul (F64.mul S sa) sb)) (VFloat sc))
    with (Ok (VFloat (F64.mul (F64.mul (F64.mul S sa) sb) sc))).
  destruct (F64_mul_spec (54 + 107 + 1 + 107 + 1) 107 _ sc ltac:(lia) ltac:(lia) ltac:(lia) Bp2 Bsc)
    as (Bp3 & Sp3).
  eexists. split; [ reflexivity | ]. split.
  - eapply in_range_weaken; [ | exact Bp3 ]. lia.
  - rewrite Sp3, Sp2, Sp1, SS, Ssa, Ssb, Ssc. unfold P.
    f_equal; [ f_equal; [ f_equal | ] | ]; f_equal; lia.
Qed.

(** ** The triangle inequality and the sign of Heron's operand *)

Lemma heron_sign_negative a b c :
  0 <= a -> 0 <= b -> 0 <= c ->
  Z.sgn (a + b + c) * Z.sgn (b + c - a) * Z.sgn (a + c - b) * Z.sgn (a + b - c)
    = -1 <-> ~ triangle_inequality a b c.
Proof.
  intros Ha Hb Hc. unfold triangle_inequality.
  destruct (Z.sgn_spec (a + b + c)) as [[? ->] | [[? ->] | [? ->]]];
    destruct (Z.sgn_spec (b + c - a)) as [[? ->] | [[? ->] | [? ->]]];
    destruct (Z.sgn_spec (a + c - b)) as [[? ->] | [[? ->] | [? ->]]];
    destruct (Z.sgn_spec (a + b - c)) as [[? ->] | [[? ->] | [? ->]]];
    simpl; split; intros; try lia.
Qed.

Lemma heron_sign_boundary a b c :
  on_boundary a b c ->
  Z.sgn (a + b + c) * Z.sgn (b + c - a) * Z.sgn (a + c - b) * Z.sgn (a + b - c)
    = 0.
Proof.
  intros [-> | [-> | ->]].
  - replace (b + c - (b + c)) with 0 by lia. simpl. lia.
  - replace (a + c - (a + c)) with 0 by lia. simpl. lia.
  - replace (a + b - (a + b)) with 0 by lia. simpl. lia.
Qed.

(** [area()] on integer sides in the exact range: [ValueError] when a
    side is longer than the other two together, a value otherwise. *)
Lemma heron_int a b c :
  0 <= a -> 0 <= b -> 0 <= c -> a + b + c < 2 ^ 53 ->
  (heron_formula (VInt a) (VInt b) (VInt c) = Raise ValueError <->
   ~ triangle_inequality a b c) /\
  (triangle_inequality a b c -> returns (heron_formula (VInt a) (VInt b) (VInt c))) /\
  (on_boundary a b c ->
   exists s, heron_radicand (VInt a) (VInt b) (VInt c) = Ok (VFloat (S754_zero s)) /\
             heron_formula (VInt a) (VInt b) (VInt c) = Ok (VFloat (S754_zero s))).
Proof.
  intros Ha Hb Hc HP.
  destruct (heron_radicand_int a b c Ha Hb Hc HP) as (x & Hx & Bx & Sx).
  pose proof (heron_sign_negative a b c Ha Hb Hc) as Hneg.
  unfold heron_formula. rewrite Hx. cbn [result_bind]. rewrite math_sqrt_float.
  rewrite (ltb_fsign 400 x Bx), Sx.
  split; [ | split ].
  - rewrite <- Hneg.
    destruct (_ =? -1) eqn:E; [ apply Z.eqb_eq in E | apply Z.eqb_neq in E ];
      split; intros; try discriminate; try reflexivity; try contradiction;
      assumption.
  - intros Ht.
    destruct (_ =? -1) eqn:E; [ apply Z.eqb_eq in E | auto ].
    apply Hneg in E. contradiction.
  - intros Hbd. pose proof (heron_sign_boundary a b c Hbd) as H0.
    rewrite H0 in Sx |- *. destruct (fsign_zero 400 x Bx Sx) as (s & ->).
    exists s. split; reflexivity.
Qed.

(** * The claims of the specification *)

(** C1 (as amended).  [Circle(radius)] succeeds for every [int], [bool],
    [float] and [complex] argument, giving a [Circle] whose [radius]
    attribute is the argument itself; for any other argument it raises
    [ValueError], which is what the caller of the constructor receives. *)
Theorem Circle_construction (v : value) :
  match v with
  | VBool _ | VInt _ | VFloat _ | VComplex _ _ =>
      exists c, Circle.new v = Ok c /\ ob_type c = Circle_cls /\
                ob_dict c !! "radius" = Some v
  | VNone | VStr _ => Circle.new v = Raise ValueError
  end.
Proof.
  destruct v;
    try (apply Circle_new_rejects; reflexivity);
    now apply Circle_new_attrs.
Qed.

(** C1, the claim as stated fails: [Circle("not a number")] raises
    [ValueError], not [TypeError]. *)
Lemma Circle_not_a_number_is_ValueError :
  Circle.new (VStr "not a number") = Raise ValueError /\
  Circle.new (VStr "not a number") <> Raise TypeError.
Proof. split; [ reflexivity | discriminate ]. Qed.

(** C2 (as amended).  [Triangle(a, b, c)] never fails, whatever the three
    arguments.  [area()] raises the domain error ([ValueError]) exactly
    when the operand of the square root it has computed is a double below
    zero; for integer sides that are not negative and whose sum is below
    [2 ^ 53] this is exactly when they violate the triangle inequality,
    and [area()] returns when they satisfy it. *)
Theorem Triangle_area_domain_error (a b c : value) :
  exists t, Triangle.new a b c = Ok t /\
    (call Triangle.area t = Raise ValueError <->
     exists x, heron_radicand a b c = Ok (VFloat x) /\
               F64.ltb x F64.zero = true) /\
    (forall k m n : Z,
       a = VInt k -> b = VInt m -> c = VInt n ->
       0 <= k -> 0 <= m -> 0 <= n -> k + m + n < 2 ^ 53 ->
       (call Triangle.area t = Raise ValueError <-> ~ triangle_inequality k m n) /\
       (triangle_inequality k m n -> returns (call Triangle.area t))).
Proof.
  destruct (Triangle_new_attrs a b c) as (t & Hnew & _ & Ha & Hb & Hc).
  exists t. split; [ exact Hnew | ].
  rewrite (Triangle_area_of_sides t a b c Ha Hb Hc).
  split; [ apply heron_ValueError | ].
  intros k m n -> -> -> Hk Hm Hn HP.
  destruct (heron_int k m n Hk Hm Hn HP) as (H1 & H2 & _). auto.
Qed.

(** C2, the claim as stated fails: the sides [(-1, -1, -1)] violate the
    triangle inequality, yet [Triangle(-1, -1, -1).area()] returns a
    value (the square root of [0.1875]) and raises nothing. *)
Lemma negative_sides_no_domain_error :
  exists t, Triangle.new (VInt (-1)) (VInt (-1)) (VInt (-1)) = Ok t /\
    ~ triangle_inequality (-1) (-1) (-1) /\
    ~ strict_triangle_inequality (-1) (-1) (-1) /\
    heron_radicand (VInt (-1)) (VInt (-1)) (VInt (-1))
      = Ok (VFloat (F64.of_quotient 3 16)) /\
    returns (call Triangle.area t) /\
    call Triangle.area t <> Raise ValueError.
Proof.
  destruct (Triangle_new_attrs (VInt (-1)) (VInt (-1)) (VInt (-1)))
    as (t & Hnew & _ & Ha & Hb & Hc).
  exists t. split; [ exact Hnew | ].
  rewrite (Triangle_area_of_sides t _ _ _ Ha Hb Hc).
  split; [ unfold triangle_inequality; lia | ].
  split; [ unfold strict_triangle_inequality; lia | ].
  split; [ vm_compute; reflexivity | ].
  assert (heron_formula (VInt (-1)) (VInt (-1)) (VInt (-1))
          = Ok (VFloat (S754_finite false 7800463371553962 (-54)))) as ->
    by (vm_compute; reflexivity).
  split; [ apply returns_Ok | discriminate ].
Qed.

(** C3.  For every radius [r >= 0], [Circle(r).diameter()] has the
    outcome of [2 * r], [perimeter()] that of [2 * math.pi * r] and
    [area()] that of [math.pi * r * r], and the two sides compare equal
    under [==]; the three methods depend on nothing but the [radius]
    attribute.  [diameter()] always returns, the exact [2 * n] for an
    integer radius [n]; the other two return whenever an integer radius
    is within the range of a double, and on a float radius all three are
    the binary64 products. *)
Theorem Circle_formulas (r : value) (Hr : py_ge r (VInt 0) = Ok true) :
  exists c, Circle.new r = Ok c /\
    call Circle.diameter c = py_mul (VInt 2) r /\
    call Circle.perimeter c = (t <- py_mul (VInt 2) math.pi ;; py_mul t r)%result /\
    call Circle.area c = (t <- py_mul math.pi r ;; py_mul t r)%result /\
    same_outcome (call Circle.diameter c) (py_mul (VInt 2) r) /\
    same_outcome (call Circle.perimeter c)
      (t <- py_mul (VInt 2) math.pi ;; py_mul t r)%result /\
    same_outcome (call Circle.area c) (t <- py_mul math.pi r ;; py_mul t r)%result /\
    returns (call Circle.diameter c) /\
    (forall n, r = VInt n -> call Circle.diameter c = Ok (VInt (2 * n))) /\
    (forall f, r = VFloat f ->
       call Circle.diameter c = Ok (VFloat (F64.mul (F64.of_Z 2) f)) /\
       call Circle.perimeter c =
         Ok (VFloat (F64.mul (F64.mul (F64.of_Z 2) F64.pi) f)) /\
       call Circle.area c = Ok (VFloat (F64.mul (F64.mul F64.pi f) f))) /\
    (int_below 1023 r ->
       returns (call Circle.perimeter c) /\ returns (call Circle.area c)) /\
    (forall c', ob_dict c' !! "radius" = Some r ->
       call Circle.diameter c' = call Circle.diameter c /\
       call Circle.perimeter c' = call Circle.perimeter c /\
       call Circle.area c' = call Circle.area c).
Proof.
  assert (is_number r = true /\ has_nan r = false /\
          forall re im, r <> VComplex re im) as (Nr & Hnan & Hcx).
  { destruct (py_ge_0_cases r Hr) as [(n & E & _ & Hi) | (f & -> & Hf)].
    - destruct r; try discriminate; repeat split; discriminate.
    - repeat split; try discriminate. simpl. now apply is_nan_false. }
  destruct (Circle_new_attrs r Nr) as (c & Hnew & _ & Hrad).
  exists c. split; [ exact Hnew | ].
  pose proof (Circle_diameter_of_radius c r Hrad) as Hd.
  pose proof (Circle_perimeter_of_radius c r Hrad) as Hp.
  pose proof (Circle_area_of_radius c r Hrad) as Ha.
  rewrite Hd, Hp, Ha. rewrite py_mul_2_pi. cbn [result_bind].
  set (twopi := S754_finite false 7074237752028440 (-50)).
  set (pi := F64.pi).
  change math.pi with (VFloat pi).
  repeat (split; [ reflexivity | ]).
  split; [ | split; [ | split; [ | split; [ | split; [ | split; [ | split ] ] ] ] ] ].
  - (* diameter under == *)
    apply same_outcome_refl. intros v.
    destruct (py_ge_0_cases r Hr) as [(n & E & _ & Hi) | (f & -> & Hf)].
    + destruct r; try discriminate; arith_unfold; intros [= <-]; reflexivity.
    + arith_unfold. rewrite float_of_int_2. cbn [result_bind]. intros [= <-].
      simpl. apply is_nan_false. intros H.
      apply F64_mul_finite_nan in H; [ contradiction | eauto ].
  - (* perimeter under == *)
    apply same_outcome_refl. intros v.
    destruct (float_times_real r Hnan Nr Hcx) as [(f & Hf & E) | E];
      rewrite E; [ | discriminate ].
    intros [= <-]. simpl. apply is_nan_false. intros H.
    apply F64_mul_finite_nan in H; [ contradiction | unfold twopi; eauto ].
  - (* area under == *)
    apply same_outcome_refl. intros v.
    destruct (float_times_real r Hnan Nr Hcx) as [(f & Hf & E) | E];
      rewrite E; cbn [result_bind]; [ | discriminate ].
    rewrite E. intros [= <-]. simpl. apply is_nan_false. intros H.
    apply F64_mul_mul_nan in H; [ contradiction | unfold pi; eauto ].
  - destruct (py_mul_2_number r Nr) as (v & -> & _). auto.
  - intros n ->. reflexivity.
  - intros f ->. repeat split; reflexivity.
  - intros Hb.
    destruct (py_mul_below (VFloat twopi) r I Hb) as (v & -> & _).
    split; [ auto | ].
    destruct (py_mul_below (VFloat pi) r I Hb) as (t & E1 & _).
    rewrite E1. cbn [result_bind].
    destruct (py_mul_again (VFloat pi) r t Nr eq_refl E1) as (_ & v' & -> & _).
    auto.
  - intros c' Hrad'.
    rewrite (Circle_diameter_of_radius c' r Hrad').
    rewrite (Circle_perimeter_of_radius c' r Hrad').
    rewrite (Circle_area_of_radius c' r Hrad').
    rewrite py_mul_2_pi. repeat split; reflexivity.
Qed.

(** C3, an instance: the radius 7 of the circle test suite. *)
Lemma Circle_formulas_witness :
  py_ge (VInt 7) (VInt 0) = Ok true /\
  exists c, Circle.new (VInt 7) = Ok c /\
    call Circle.diameter c = Ok (VInt 14) /\
    returns (call Circle.perimeter c) /\ returns (call Circle.area c).
Proof.
  split; [ reflexivity | ].
  destruct (Circle_formulas (VInt 7) eq_refl)
    as (c & Hnew & _ & _ & _ & _ & _ & _ & _ & Hd & _ & Hret & _).
  exists c. split; [ exact Hnew | ]. split; [ exact (Hd 7 eq_refl) | ].
  apply Hret. unfold int_below. cbn [as_num]. simpl Z.abs.
  change 7 with (2 ^ 3 - 1).
  pose proof (pow2_le_mono 3 1023 ltac:(lia)). lia.
Defined.


(** C5.  [Rectangle(w, h)] stores both arguments as given, without any
    check; [area()] has the outcome of [w * h] and [perimeter()] the
    outcome of [2 * (w + h)].  On integers these are the exact product
    and the exact doubled sum, on floats the binary64 ones. *)
Theorem Rectangle_area_perimeter (w h : value) :
  exists r, Rectangle.new w h = Ok r /\
    ob_dict r !! "width" = Some w /\ ob_dict r !! "height" = Some h /\
    call Rectangle.area r = py_mul w h /\
    call Rectangle.perimeter r = (t <- py_add w h ;; py_mul (VInt 2) t)%result /\
    (forall m n : Z, w = VInt m -> h = VInt n ->
       call Rectangle.area r = Ok (VInt (m * n)) /\
       call Rectangle.perimeter r = Ok (VInt (2 * (m + n)))) /\
    (forall x y : spec_float, w = VFloat x -> h = VFloat y ->
       call Rectangle.area r = Ok (VFloat (F64.mul x y)) /\
       call Rectangle.perimeter r =
         Ok (VFloat (F64.mul (F64.of_Z 2) (F64.add x y)))).
Proof.
  destruct (Rectangle_new_attrs w h) as (r & Hnew & _ & Hw & Hh).
  exists r.
  pose proof (Rectangle_area_of_sides r w h Hw Hh) as Ha.
  pose proof (Rectangle_perimeter_of_sides r w h Hw Hh) as Hp.
  repeat (split; [ assumption | ]).
  split.
  - intros m n -> ->. rewrite Ha, Hp. split; reflexivity.
  - intros x y -> ->. rewrite Ha, Hp. split; reflexivity.
Qed.

(** C6 (as amended).  [is_square()] returns the result of the native
    [width == height], with no tolerance: it is [False] whenever
    [w != h], and [Rectangle(w, w).is_square()] is [True] exactly for the
    [w] that hold no NaN. *)
Theorem Rectangle_is_square_native (w h : value) :
  exists r rr,
    Rectangle.new w h = Ok r /\ Rectangle.new w w = Ok rr /\
    call Rectangle.is_square r = Ok (VBool (py_eq w h)) /\
    call Rectangle.is_square r = Ok (VBool (negb (py_ne w h))) /\
    call Rectangle.is_square rr = Ok (VBool (negb (has_nan w))).
Proof.
  destruct (Rectangle_new_attrs w h) as (r & Hnew & _ & Hw & Hh).
  destruct (Rectangle_new_attrs w w) as (rr & Hnew' & _ & Hw' & Hh').
  exists r, rr.
  rewrite (Rectangle_is_square_of_sides r w h Hw Hh).
  rewrite (Rectangle_is_square_of_sides rr w w Hw' Hh').
  unfold py_ne. rewrite negb_involutive, py_eq_refl. auto.
Qed.

(** C6, the claim as stated fails: for [w = float("nan")],
    [Rectangle(w, w).is_square()] is [False]. *)
Lemma Rectangle_nan_is_not_square :
  exists r, Rectangle.new (VFloat S754_nan) (VFloat S754_nan) = Ok r /\
            call Rectangle.is_square r = Ok (VBool false).
Proof. eexists. split; [ apply Rectangle_new_dict | reflexivity ]. Qed.

(** C7.  On every rectangle [edge_count()] and [vertex_count()] return 4,
    on every triangle they return 3; so through the [Polygon] capability
    the two counts of any polygon are the same integer, at least 3,
    whatever its sides. *)
Theorem Polygon_counts (self : object) :
  call Rectangle.edge_count self = Ok (VInt 4) /\
  call Rectangle.vertex_count self = Ok (VInt 4) /\
  call Triangle.edge_count self = Ok (VInt 3) /\
  call Triangle.vertex_count self = Ok (VInt 3) /\
  if is_polygon (ob_type self) then
    exists n, 3 <= n /\
      call Polygon.edge_count self = Ok (VInt n) /\
      call Polygon.vertex_count self = Ok (VInt n) /\
      same_outcome (call Polygon.edge_count self) (call Polygon.vertex_count self)
  else
    call Polygon.edge_count self = Raise AttributeError.
Proof.
  repeat (split; [ reflexivity | ]).
  unfold call, Polygon.edge_count, Polygon.vertex_count.
  destruct (ob_type self); cbn [is_polygon].
  - reflexivity.
  - exists 4. repeat split; discriminate.
  - exists 3. repeat split; discriminate.
Qed.

(** C8 (as amended).  On numbers, the constructors of [Rectangle] and
    [Triangle], the two counts of both, [is_square()] and
    [Circle.diameter()] always return.  [area()] and [perimeter()] of
    [Rectangle] and [Circle] and [Triangle.perimeter()] return or raise
    [OverflowError], nothing else; they return whenever every integer
    argument is below [2 ^ 1022] in magnitude. *)
Theorem total_on_numbers (x y z : value)
    (Hx : is_number x = true) (Hy : is_number y = true)
    (Hz : is_number z = true) :
  (exists r, Rectangle.new x y = Ok r /\
     returns (call Rectangle.edge_count r) /\
     returns (call Rectangle.vertex_count r) /\
     returns (call Rectangle.is_square r) /\
     returns_or_overflows (call Rectangle.area r) /\
     returns_or_overflows (call Rectangle.perimeter r) /\
     (int_below 1022 x -> int_below 1022 y ->
        returns (call Rectangle.area r) /\
        returns (call Rectangle.perimeter r))) /\
  (exists c, Circle.new x = Ok c /\
     returns (call Circle.diameter c) /\
     returns_or_overflows (call Circle.area c) /\
     returns_or_overflows (call Circle.perimeter c) /\
     (int_below 1022 x ->
        returns (call Circle.area c) /\ returns (call Circle.perimeter c))) /\
  (exists t, Triangle.new x y z = Ok t /\
     returns (call Triangle.edge_count t) /\
     returns (call Triangle.vertex_count t) /\
     returns_or_overflows (call Triangle.perimeter t) /\
     (int_below 1022 x -> int_below 1022 y -> int_below 1022 z ->
        returns (call Triangle.perimeter t))).
Proof.
  assert (forall k v, int_below 1022 v -> k = 1023 -> int_below k v) as Hup.
  { intros k v H ->. apply int_below_weaken with 1022; [ lia | exact H ]. }
  split; [ | split ].
  - destruct (Rectangle_new_attrs x y) as (r & Hnew & _ & Hw & Hh).
    exists r. split; [ exact Hnew | ].
    rewrite (Rectangle_area_of_sides r x y Hw Hh).
    rewrite (Rectangle_perimeter_of_sides r x y Hw Hh).
    rewrite (Rectangle_is_square_of_sides r x y Hw Hh).
    repeat (split; [ apply returns_Ok | ]).
    split; [ | split ].
    + destruct (py_mul_number x y Hx Hy) as [(v & -> & _) | ->];
        [ left; auto | now right ].
    + destruct (py_add_number x y Hx Hy) as [(v & -> & Nv) | ->];
        cbn [result_bind]; [ left | now right ].
      destruct (py_mul_2_number v Nv) as (w & -> & _). auto.
    + intros Bx By. split.
      * destruct (py_mul_below x y (Hup _ _ Bx eq_refl) (Hup _ _ By eq_refl))
          as (v & -> & _). auto.
      * destruct (py_add_below 1022 x y ltac:(lia) Bx By) as (v & -> & Bv).
        cbn [result_bind].
        destruct (py_mul_2_number v (int_below_number _ _ Bv)) as (w & -> & _).
        auto.
  - destruct (Circle_new_attrs x Hx) as (c & Hnew & _ & Hrad).
    exists c. split; [ exact Hnew | ].
    rewrite (Circle_diameter_of_radius c x Hrad).
    rewrite (Circle_perimeter_of_radius c x Hrad).
    rewrite (Circle_area_of_radius c x Hrad).
    rewrite py_mul_2_pi. cbn [result_bind].
    split; [ destruct (py_mul_2_number x Hx) as (v & -> & _); auto | ].
    split; [ | split ].
    + destruct (py_mul_number math.pi x eq_refl Hx) as [(t & E & _) | ->];
        [ | now right ].
      rewrite E. cbn [result_bind]. left.
      destruct (py_mul_again math.pi x t Hx eq_refl E) as (_ & v & -> & _).
      auto.
    + destruct (py_mul_number (VFloat (S754_finite false 7074237752028440 (-50)))
                  x eq_refl Hx) as [(t & -> & _) | ->];
        [ left; auto | now right ].
    + intros Bx. apply Hup with (k := 1023) in Bx; [ | reflexivity ]. split.
      * destruct (py_mul_below math.pi x I Bx) as (t & E & _).
        rewrite E. cbn [result_bind].
        destruct (py_mul_again math.pi x t Hx eq_refl E) as (_ & v & -> & _).
        auto.
      * destruct (py_mul_below (VFloat (S754_finite false 7074237752028440 (-50)))
                    x I Bx) as (t & -> & _). auto.
  - destruct (Triangle_new_attrs x y z) as (t & Hnew & _ & Ha & Hb & Hc).
    exists t. split; [ exact Hnew | ].
    rewrite (Triangle_perimeter_of_sides t x y z Ha Hb Hc).
    repeat (split; [ apply returns_Ok | ]). unfold side_sum. split.
    + destruct (py_add_number x y Hx Hy) as [(v & -> & Nv) | ->];
        cbn [result_bind]; [ | now right ].
      destruct (py_add_number v z Nv Hz) as [(w & -> & _) | ->];
        [ left; auto | now right ].
    + intros Bx By Bz.
      destruct (py_add_below 1022 x y ltac:(lia) Bx By) as (v & -> & Bv).
      cbn [result_bind]. apply Hup with (k := 1023) in Bz; [ | reflexivity ].
      change (1022 + 1) with 1023 in Bv.
      pose proof (int_below_number _ _ Bv) as Nv.
      pose proof (int_below_number _ _ Bz) as Nz.
      clear - Bv Bz Nv Nz.
      number_cases Nv; number_cases Nz; arith_unfold; use_below; auto.
Qed.

(** C8, the claim as stated fails: [Circle(10 ** 400).area()] and
    [.perimeter()] raise [OverflowError], as do
    [Rectangle(10 ** 400, 1.5).area()] and
    [Triangle(10 ** 400, 1.5, 1.5).perimeter()]. *)
Lemma area_of_huge_int_overflows :
  (exists c, Circle.new (VInt (10 ^ 400)) = Ok c /\
     call Circle.area c = Raise OverflowError /\
     call Circle.perimeter c = Raise OverflowError) /\
  (exists r, Rectangle.new (VInt (10 ^ 400)) (VFloat (F64.of_quotient 3 2)) = Ok r /\
     call Rectangle.area r = Raise OverflowError) /\
  (exists t, Triangle.new (VInt (10 ^ 400)) (VFloat (F64.of_quotient 3 2))
               (VFloat (F64.of_quotient 3 2)) = Ok t /\
     call Triangle.perimeter t = Raise OverflowError).
Proof.
  split; [ | split ].
  - destruct (Circle_new_attrs (VInt (10 ^ 400)) eq_refl) as (c & Hnew & _ & Hr).
    exists c. split; [ exact Hnew | ].
    rewrite (Circle_area_of_radius c _ Hr), (Circle_perimeter_of_radius c _ Hr).
    split; vm_compute; reflexivity.
  - destruct (Rectangle_new_attrs (VInt (10 ^ 400)) (VFloat (F64.of_quotient 3 2)))
      as (r & Hnew & _ & Hw & Hh).
    exists r. split; [ exact Hnew | ].
    rewrite (Rectangle_area_of_sides r _ _ Hw Hh). vm_compute; reflexivity.
  - destruct (Triangle_new_attrs (VInt (10 ^ 400)) (VFloat (F64.of_quotient 3 2))
                (VFloat (F64.of_quotient 3 2))) as (t & Hnew & _ & Ha & Hb & Hc).
    exists t. split; [ exact Hnew | ].
    rewrite (Triangle_perimeter_of_sides t _ _ _ Ha Hb Hc). vm_compute; reflexivity.
Qed.

(** C8, an instance: the shapes of the test suites. *)
Lemma total_on_numbers_witness :
  is_number (VInt 10) = true /\ is_number (VInt 4) = true /\
  is_number (VInt 5) = true /\
  (exists r, Rectangle.new (VInt 10) (VInt 4) = Ok r /\
     returns_or_overflows (call Rectangle.area r)) /\
  (exists c, Circle.new (VInt 10) = Ok c /\
     returns_or_overflows (call Circle.area c)) /\
  (exists t, Triangle.new (VInt 10) (VInt 4) (VInt 5) = Ok t /\
     returns_or_overflows (call Triangle.perimeter t)).
Proof.
  repeat (split; [ reflexivity | ]).
  destruct (total_on_numbers (VInt 10) (VInt 4) (VInt 5) eq_refl eq_refl eq_refl)
    as ((r & Hr & _ & _ & _ & Ha & _) & (c & Hc & _ & Hca & _) &
        (t & Ht & _ & _ & Hp & _)).
  split; [ exists r; auto | ]. split; [ exists c; auto | exists t; auto ].
Defined.

(** C9.  No capability method of [Circle], [Rectangle] or [Triangle]
    assigns to [self]: after the call the instance has the class and the
    attribute dictionary it had before, whether the call returned or
    raised, and calling the method again gives the same outcome. *)
Theorem methods_leave_instance_unchanged :
  Forall (fun m : method value =>
            forall self,
              after m self = self /\
              ob_dict (after m self) = ob_dict self /\
              call m (after m self) = call m self /\
              call m (after m (after m self)) = call m self)
         capability_methods.
Proof.
  eapply Forall_impl; [ apply capability_methods_read_only | ].
  intros m Hm self. cbv beta. rewrite !(Hm self). auto.
Qed.




(** * Lemmas for the further properties *)

(** ** Commutative operators *)

Lemma F64_mul_comm x y : F64.mul x y = F64.mul y x.
Proof.
  unfold F64.mul.
  destruct x as [sx | sx | | sx mx ex], y as [sy | sy | | sy my ey];
    cbn [SFmul]; try reflexivity; try (now rewrite xorb_comm).
  now rewrite xorb_comm, Pos.mul_comm, Z.add_comm.
Qed.

Lemma F64_add_comm x y : F64.add x y = F64.add y x.
Proof.
  unfold F64.add.
  destruct x as [sx | sx | | sx mx ex], y as [sy | sy | | sy my ey];
    cbn [SFadd]; try reflexivity; try (now destruct sx, sy).
  now rewrite Z.min_comm, Z.add_comm.
Qed.

Lemma F64_eqb_sym x y : F64.eqb x y = F64.eqb y x.
Proof.
  unfold F64.eqb, SFeqb.
  destruct x as [sx | sx | | sx mx ex], y as [sy | sy | | sy my ey];
    cbn [SFcompare]; try reflexivity;
    try (destruct sx, sy; reflexivity);
    try (destruct sx; reflexivity); try (destruct sy; reflexivity).
  pose proof (Pos.compare_antisym my mx) as Hm. unfold Pos.compare in Hm.
  rewrite (Z.compare_antisym ey ex), Hm.
  destruct sx, sy; try reflexivity;
    destruct (ey ?= ex); cbn [CompOpp]; try reflexivity;
    now destruct (Pos.compare_cont Eq my mx).
Qed.

Lemma num_binop_comm iop fop cop x y :
  (forall a b, iop a b = iop b a) ->
  (forall a b, fop a b = fop b a) ->
  (forall a b, cop a b = cop b a) ->
  num_binop iop fop cop x y = num_binop iop fop cop y x.
Proof.
  intros Hi Hf Hc.
  destruct x as [a | f | re im], y as [b | g | re' im'];
    cbn [num_binop to_float to_complex result_bind];
    try apply Hi; try apply Hf; try apply Hc;
    repeat match goal with
    | |- context [float_of_int ?n] =>
        destruct (float_of_int n); cbn [result_bind]
    end; try reflexivity; try apply Hf; try apply Hc.
Qed.

Lemma Cx_prod_comm a b : Cx.prod a b = Cx.prod b a.
Proof.
  unfold Cx.prod.
  rewrite (F64_mul_comm (fst a) (fst b)), (F64_mul_comm (snd a) (snd b)).
  rewrite (F64_mul_comm (fst a) (snd b)), (F64_mul_comm (snd a) (fst b)).
  now rewrite F64_add_comm.
Qed.

Lemma Cx_sum_comm a b : Cx.sum a b = Cx.sum b a.
Proof.
  unfold Cx.sum.
  now rewrite (F64_add_comm (fst a)), (F64_add_comm (snd a)).
Qed.

(** [x * y] and [y * x] agree on all values: a string is repeated from
    either side. *)
Lemma py_mul_comm x y : py_mul x y = py_mul y x.
Proof.
  unfold py_mul.
  destruct (as_num x) as [a | ] eqn:Ex, (as_num y) as [b | ] eqn:Ey.
  - apply num_binop_comm; intros.
    + now rewrite Z.mul_comm.
    + now rewrite F64_mul_comm.
    + now rewrite Cx_prod_comm.
  - destruct x, y; try discriminate; reflexivity.
  - destruct x, y; try discriminate; reflexivity.
  - destruct x, y; try discriminate; reflexivity.
Qed.

Lemma py_add_comm x y :
  is_number x = true -> is_number y = true -> py_add x y = py_add y x.
Proof.
  unfold is_number, py_add.
  destruct (as_num x) as [a | ]; [ | discriminate ].
  destruct (as_num y) as [b | ]; [ | discriminate ].
  intros _ _.
  apply num_binop_comm; intros.
  - now rewrite Z.add_comm.
  - now rewrite F64_add_comm.
  - now rewrite Cx_sum_comm.
Qed.

Lemma num_eqb_sym a b : num_eqb a b = num_eqb b a.
Proof.
  destruct a, b; cbn [num_eqb]; try reflexivity.
  - apply Z.eqb_sym.
  - apply F64_eqb_sym.
  - unfold Cx.eqb. cbn [fst snd].
    now rewrite (F64_eqb_sym re), (F64_eqb_sym im).
Qed.

Lemma py_eq_sym x y : py_eq x y = py_eq y x.
Proof.
  unfold py_eq.
  destruct (as_num x) as [a | ] eqn:Ex, (as_num y) as [b | ] eqn:Ey.
  - apply num_eqb_sym.
  - destruct x, y; try discriminate; reflexivity.
  - destruct x, y; try discriminate; reflexivity.
  - destruct x, y; try discriminate; try reflexivity.
    apply String.eqb_sym.
Qed.

(** ** Negation *)








Lemma on_new_Circle {A} r (m : method A) :
  is_number r = true ->
  exists c, Circle.new r = Ok c /\ ob_dict c !! "radius" = Some r /\
            on_new (Circle.new r) m = call m c.
Proof.
  intros H. destruct (Circle_new_attrs r H) as (c & Hc & _ & Hr).
  exists c. rewrite Hc. auto.
Qed.

(** The square of a double that is not a NaN, times a positive constant,
    has the sign bit clear. *)
Lemma F64_square_sign c x :
  x <> S754_nan -> (exists m e, c = S754_finite false m e) ->
  sign_is false (F64.mul (F64.mul c x) x).
Proof.
  intros Hx (mc & ec & ->).
  destruct x as [s | s | | s m e]; [ | | congruence | ].
  - cbn. now destruct s.
  - cbn. now destruct s.
  - unfold F64.mul at 2. cbn [SFmul xorb].
    pose proof (binary_round_aux_sign F64.prec F64.emax s
                  (Z.pos (mc * m)) (ec + e) loc_Exact ltac:(lia)) as Ht.
    destruct (binary_round_aux _ _ s _ _ _) as [st | st | | st mt et];
      cbn [sign_is] in Ht; try contradiction; subst st.
    + cbn. now destruct s.
    + cbn. now destruct s.
    + unfold F64.mul. cbn [SFmul]. rewrite xorb_nilpotent.
      apply binary_round_aux_sign. lia.
Qed.

(** ** What the operators can raise *)









(** ** The square root of a double that is not below zero *)


(** A mantissa that is not zero, at an exponent no lower than the
    smallest, keeps a digit through a shift of the rounding. *)
Lemma shift_keeps_positive m e :
  1 <= m -> -1074 <= e ->
  let k := Z.max 0 (fexp 53 1024 (Zdigits2 m + e) - e) in
  1 <= m / 2 ^ k /\ -1074 <= e + k.
Proof.
  intros Hm He k.
  pose proof (Zdigits2_lower m ltac:(lia)) as Hlo.
  assert (1 <= Zdigits2 m) as Hd.
  { destruct m as [ | p | p]; try lia. simpl. lia. }
  assert (0 <= k <= Zdigits2 m - 1) as Hk.
  { unfold k. rewrite fexp64. lia. }
  split; [ | lia ].
  assert (0 < 2 ^ k) by (apply Z.pow_pos_nonneg; lia).
  apply Z.div_le_lower_bound; [ lia | ].
  rewrite Z.mul_1_r.
  apply Z.le_trans with (2 ^ (Zdigits2 m - 1)); [ | exact Hlo ].
  apply Z.pow_le_mono_r; lia.
Qed.

Lemma binary_round_aux_nonzero s m e l :
  1 <= m -> -1074 <= e ->
  forall s', binary_round_aux 53 1024 s m e l <> S754_zero s'.
Proof.
  intros Hm He s'.
  destruct (binary_round_aux_shape 53 1024 s m e l ltac:(lia))
    as (m1' & Hm1' & Heq).
  cbv zeta in Heq. rewrite Heq. clear Heq.
  destruct (shift_keeps_positive m e Hm He) as [H1 He1].
  cbv zeta in H1, He1.
  destruct (shift_keeps_positive m1' _ ltac:(lia) He1) as [H2 _].
  cbv zeta in H2.
  destruct (m1' / 2 ^ _) as [ | p | p]; try lia; try discriminate.
  now destruct (_ <=? _).
Qed.

Lemma sqrt_core_positive m e :
  -2148 <= e ->
  1 <= fst (fst (SFsqrt_core_binary 53 1024 (Zpos m) e)) /\
  -1074 <= snd (fst (SFsqrt_core_binary 53 1024 (Zpos m) e)).
Proof.
  intros He. unfold SFsqrt_core_binary.
  set (d := Zdigits2 (Zpos m)).
  set (e' := Z.min (fexp 53 1024 (Z.div2 (d + e + 1))) (Z.div2 e)).
  assert (-1074 <= e' /\ 2 * e' <= e) as [He1 He2].
  { unfold e'. rewrite fexp64. rewrite !Z.div2_div.
    pose proof (Z.div_mod e 2 ltac:(lia)).
    pose proof (Z.mod_pos_bound e 2 ltac:(lia)). lia. }
  set (m' := match e - 2 * e' with Zpos _ => _ | Z0 => _ | Zneg _ => _ end).
  assert (1 <= m') as Hm'.
  { unfold m'. destruct (e - 2 * e') as [ | p | p] eqn:E; try lia.
    rewrite Z.shiftl_mul_pow2 by lia.
    assert (1 <= 2 ^ Zpos p) by (apply Z.lt_le_incl, Z.pow_gt_1; lia).
    nia. }
  pose proof (Z.sqrtrem_sqrt m') as Hs.
  destruct (Z.sqrtrem m') as [q r]. cbn [fst snd] in *. subst q.
  split; [ | exact He1 ].
  apply Z.sqrt_le_square; lia.
Qed.

(** The square root of a positive double is positive: it does not
    underflow to zero. *)
Lemma F64_sqrt_positive m e :
  -2148 <= e ->
  F64.ltb F64.zero (F64.sqrt (S754_finite false m e)) = true.
Proof.
  intros He. unfold F64.sqrt, F64.prec, F64.emax. cbn [SFsqrt].
  destruct (sqrt_core_positive m e He) as [Hq He'].
  destruct (SFsqrt_core_binary 53 1024 (Zpos m) e) as [[q e'] l].
  cbn [fst snd] in *.
  pose proof (binary_round_aux_sign 53 1024 false q e' l ltac:(lia)) as Hs.
  pose proof (binary_round_aux_nonzero false q e' l Hq He') as Hz.
  destruct (binary_round_aux 53 1024 false q e' l) as [s' | s' | | s' m' e''];
    cbn [sign_is] in Hs; try contradiction; subst.
  - now destruct (Hz false).
  - reflexivity.
  - reflexivity.
Qed.

(** ** Arithmetic with a complex operand *)





(** ** Method resolution *)

Lemma type_lookup_Circle :
  type_lookup Circle_class "area" =
    Some (MethodDef "area" false Circle.area) /\
  type_lookup Circle_class "perimeter" =
    Some (MethodDef "perimeter" false Circle.perimeter) /\
  type_lookup Circle_class "diameter" =
    Some (MethodDef "diameter" false Circle.diameter).
Proof. repeat split. Qed.

Lemma type_lookup_Rectangle :
  type_lookup Rectangle_class "area" =
    Some (MethodDef "area" false Rectangle.area) /\
  type_lookup Rectangle_class "perimeter" =
    Some (MethodDef "perimeter" false Rectangle.perimeter) /\
  type_lookup Rectangle_class "edge_count" =
    Some (MethodDef "edge_count" false Rectangle.edge_count) /\
  type_lookup Rectangle_class "vertex_count" =
    Some (MethodDef "vertex_count" false Rectangle.vertex_count).
Proof. repeat split. Qed.

Lemma type_lookup_Triangle :
  type_lookup Triangle_class "area" =
    Some (MethodDef "area" false Triangle.area) /\
  type_lookup Triangle_class "perimeter" =
    Some (MethodDef "perimeter" false Triangle.perimeter) /\
  type_lookup Triangle_class "edge_count" =
    Some (MethodDef "edge_count" false Triangle.edge_count) /\
  type_lookup Triangle_class "vertex_count" =
    Some (MethodDef "vertex_count" false Triangle.vertex_count).
Proof. repeat split. Qed.

Lemma invoke_resolved name self d :
  ob_dict self !! name = None ->
  type_lookup (class_of (ob_type self)) name = Some d ->
  invoke name self = md_body d self.
Proof. intros H1 H2. unfold invoke. now rewrite H1, H2. Qed.

Lemma read_only_invoke name : read_only (invoke name).
Proof.
  intros self. unfold after, invoke.
  destruct (ob_dict self !! name); [ reflexivity | ].
  destruct Circle_read_only as (? & ? & ?).
  destruct Rectangle_read_only as (? & ? & ? & ? & ?).
  destruct Triangle_read_only as (? & ? & ? & ?).
  unfold type_lookup.
  destruct (ob_type self);
    cbn [class_of mro mro_from bases flat_map app namespace List.find md_name];
    repeat match goal with
    | |- context [String.eqb ?a name] =>
        destruct (String.eqb a name); cbn [md_body]
    | H : read_only ?m |- (?m _).2 = _ => exact (H _)
    end; reflexivity.
Qed.

(** The instances the constructors build hold their attributes only. *)

Lemma Rectangle_new_unshadowed w h self :
  Rectangle.new w h = Ok self -> unshadowed self.
Proof.
  rewrite Rectangle_new_dict. intros [= <-] name Hin. cbn [ob_dict].
  cbn [In] in Hin.
  repeat destruct Hin as [<- | Hin]; try destruct Hin; reflexivity.
Qed.

Lemma Triangle_new_unshadowed a b c self :
  Triangle.new a b c = Ok self -> unshadowed self.
Proof.
  rewrite Triangle_new_dict. intros [= <-] name Hin. cbn [ob_dict].
  cbn [In] in Hin.
  repeat destruct Hin as [<- | Hin]; try destruct Hin; reflexivity.
Qed.

Lemma Circle_new_unshadowed r self :
  Circle.new r = Ok self -> unshadowed self.
Proof.
  destruct (isinstance r [int_t; float_t; complex_t]) eqn:E.
  - rewrite (Circle_new_dict _ E). intros [= <-] name Hin. cbn [ob_dict].
    cbn [In] in Hin.
    repeat destruct Hin as [<- | Hin]; try destruct Hin; reflexivity.
  - rewrite (Circle_new_rejects _ E). discriminate.
Qed.

(** ** Running test bodies *)

Lemma call_bind {A B} (m : method A) (k : A -> method B) self :
  read_only m ->
  call (bind m k) self =
    match call m self with
    | Ok a => call (k a) self
    | Raise e => Raise e
    end.
Proof.
  intros Hm. specialize (Hm self). unfold after in Hm.
  unfold call, bind.
  destruct (m self) as [[a | e] self']; simpl in *; now subst.
Qed.

Lemma call_getattr {B} name v (k : value -> method B) self :
  ob_dict self !! name = Some v ->
  call (bind (getattr name) k) self = call (k v) self.
Proof. intros H. unfold call. now rewrite (bind_getattr _ _ _ _ H). Qed.

Lemma call_eval {A B} (r : result A) (k : A -> method B) self :
  call (bind (eval r) k) self =
    match r with
    | Ok a => call (k a) self
    | Raise e => Raise e
    end.
Proof. destruct r; reflexivity. Qed.

Lemma call_invoke {B} name d (k : value -> method B) self :
  ob_dict self !! name = None ->
  type_lookup (class_of (ob_type self)) name = Some d ->
  call (bind (invoke name) k) self =
    match call (md_body d) self with
    | Ok a => call (k a) self
    | Raise e => Raise e
    end.
Proof.
  intros H1 H2. rewrite call_bind by apply read_only_invoke.
  unfold call at 1. now rewrite (invoke_resolved _ _ _ H1 H2).
Qed.

Lemma verdict_self v : verdict_of (Ok (py_eq v v)) = assertion (Ok v).
Proof. cbn. rewrite py_eq_refl. now destruct (has_nan v). Qed.

Lemma run_test_Ok self body :
  run_test (Ok self) body = verdict_of (call body self).
Proof. reflexivity. Qed.

Ltac resolve_invoke name Hun Hty L :=
  rewrite (call_invoke name _ _ _ (Hun name ltac:(cbn [In]; tauto))
             ltac:(rewrite Hty; exact L));
  cbn [md_body].

(** ** Registering markers *)

Lemma getini_addinivalue_line name line cfg :
  getini name (addinivalue_line name line cfg) = getini name cfg ++ [line].
Proof.
  unfold getini at 1, addinivalue_line. now rewrite lookup_insert_eq.
Qed.

Lemma addinivalue_line_other name name' line cfg :
  name' <> name -> addinivalue_line name line cfg !! name' = cfg !! name'.
Proof. intros H. unfold addinivalue_line. now rewrite lookup_insert_ne. Qed.

Lemma registered_app cfg cfg' new marker :
  getini "markers" cfg' = getini "markers" cfg ++ new ->
  registered cfg' marker =
    registered cfg marker ||
    existsb (fun line => String.eqb (marker_name line) marker) new.
Proof. intros H. unfold registered. now rewrite H, existsb_app. Qed.

(** ** The calculator's modulus *)

Lemma calculator_modulus : test_16_bit.MAX_VALUE + 1 = 65536.
Proof. reflexivity. Qed.

(** * Properties of the code beyond the claims *)

(** X1.  Whatever two ints [add] and [multiply] of the 16-bit calculator
    are given, negative ones included, the result lies between [0] and
    [MAX_VALUE]. *)
Theorem calculator_results_in_range (a b : Z) :
  0 <= test_16_bit.add a b <= test_16_bit.MAX_VALUE /\
  0 <= test_16_bit.multiply a b <= test_16_bit.MAX_VALUE.
Proof.
  unfold test_16_bit.add, test_16_bit.multiply. rewrite calculator_modulus.
  pose proof (Z.mod_pos_bound (a + b) 65536 ltac:(lia)).
  pose proof (Z.mod_pos_bound (a * b) 65536 ltac:(lia)).
  unfold test_16_bit.MAX_VALUE. change (2 ^ 16 - 1) with 65535. lia.
Qed.

(** X2.  On operands within [0 .. MAX_VALUE], [add] is the sum when that
    fits and the sum less [MAX_VALUE + 1] otherwise: it wraps at most
    once, and it has wrapped exactly when the result is below the first
    operand.  [multiply] is the product whenever the product fits. *)
Theorem calculator_add_wraps_once (a b : Z)
    (Ha : 0 <= a <= test_16_bit.MAX_VALUE)
    (Hb : 0 <= b <= test_16_bit.MAX_VALUE) :
  test_16_bit.add a b =
    (if a + b <=? test_16_bit.MAX_VALUE then a + b
     else a + b - (test_16_bit.MAX_VALUE + 1)) /\
  (test_16_bit.add a b < a <-> test_16_bit.MAX_VALUE < a + b) /\
  (a * b <= test_16_bit.MAX_VALUE -> test_16_bit.multiply a b = a * b).
Proof.
  unfold test_16_bit.add, test_16_bit.multiply. rewrite calculator_modulus.
  unfold test_16_bit.MAX_VALUE in *. change (2 ^ 16 - 1) with 65535 in *.
  assert ((a + b) mod 65536 =
          if a + b <=? 65535 then a + b else a + b - 65536) as E.
  { destruct (a + b <=? 65535) eqn:E;
      [ apply Z.leb_le in E | apply Z.leb_gt in E ].
    - apply Z.mod_small. lia.
    - symmetry. apply Z.mod_unique with 1; lia. }
  split; [ exact E | ]. split.
  - rewrite E.
    destruct (a + b <=? 65535) eqn:E';
      [ apply Z.leb_le in E' | apply Z.leb_gt in E' ]; lia.
  - intros H. apply Z.mod_small. nia.
Qed.

Lemma calculator_add_wraps_once_witness :
  0 <= 65535 <= test_16_bit.MAX_VALUE /\ 0 <= 1 <= test_16_bit.MAX_VALUE /\
  test_16_bit.add 65535 1 = 0.
Proof.
  assert (0 <= 65535 <= test_16_bit.MAX_VALUE) as Ha
    by (split; discriminate).
  assert (0 <= 1 <= test_16_bit.MAX_VALUE) as Hb by (split; discriminate).
  split; [ exact Ha | ]. split; [ exact Hb | ].
  destruct (calculator_add_wraps_once 65535 1 Ha Hb) as (E & _). exact E.
Defined.

(** X3.  [add] is commutative and associative on all ints; [add a 0]
    is [a] exactly for the values within [0 .. MAX_VALUE], on which [0]
    is therefore neutral; and [add 0 (- a)] is an inverse of [a]. *)
Theorem calculator_add_group (a b c : Z) :
  test_16_bit.add a b = test_16_bit.add b a /\
  test_16_bit.add (test_16_bit.add a b) c =
    test_16_bit.add a (test_16_bit.add b c) /\
  (0 <= a <= test_16_bit.MAX_VALUE <-> test_16_bit.add a 0 = a) /\
  test_16_bit.add a (test_16_bit.add 0 (- a)) = 0.
Proof.
  unfold test_16_bit.add. rewrite calculator_modulus.
  split; [ f_equal; lia | ]. split.
  { rewrite Zplus_mod_idemp_l, Zplus_mod_idemp_r. f_equal. lia. }
  split.
  { unfold test_16_bit.MAX_VALUE. change (2 ^ 16 - 1) with 65535.
    rewrite Z.add_0_r. split.
    - intros H. apply Z.mod_small. lia.
    - intros H. pose proof (Z.mod_pos_bound a 65536 ltac:(lia)). lia. }
  rewrite Z.add_0_l, Zplus_mod_idemp_r.
  replace (a + - a) with 0 by lia. reflexivity.
Qed.

(** X4.  [multiply] is commutative and associative on all ints, [1] is
    neutral up to reduction, [0] absorbs, and [multiply] distributes
    over [add]. *)
Theorem calculator_multiply_ring (a b c : Z) :
  test_16_bit.multiply a b = test_16_bit.multiply b a /\
  test_16_bit.multiply (test_16_bit.multiply a b) c =
    test_16_bit.multiply a (test_16_bit.multiply b c) /\
  test_16_bit.multiply a 1 = test_16_bit.add a 0 /\
  test_16_bit.multiply a 0 = 0 /\
  test_16_bit.multiply a (test_16_bit.add b c) =
    test_16_bit.add (test_16_bit.multiply a b) (test_16_bit.multiply a c).
Proof.
  unfold test_16_bit.add, test_16_bit.multiply. rewrite calculator_modulus.
  split; [ f_equal; lia | ]. split.
  { rewrite Zmult_mod_idemp_l, Zmult_mod_idemp_r. f_equal. lia. }
  split. { f_equal. lia. }
  split. { rewrite Z.mul_0_r. reflexivity. }
  rewrite Zmult_mod_idemp_r, <- Zplus_mod. f_equal. lia.
Qed.

(** X5.  Reducing an operand first, or shifting it by the modulus,
    changes no result; [MAX_VALUE] acts as [-1] under [multiply], so
    [multiply(MAX_VALUE, a)] is the inverse of [a] under [add].  The four
    assertions of the test functions are instances and hold. *)
Theorem calculator_reduction (a b : Z) :
  test_16_bit.add (test_16_bit.add a 0) b = test_16_bit.add a b /\
  test_16_bit.multiply (test_16_bit.add a 0) b = test_16_bit.multiply a b /\
  test_16_bit.add (a + (test_16_bit.MAX_VALUE + 1)) b = test_16_bit.add a b /\
  test_16_bit.multiply test_16_bit.MAX_VALUE a = test_16_bit.add 0 (- a) /\
  test_16_bit.add a (test_16_bit.multiply test_16_bit.MAX_VALUE a) = 0 /\
  test_16_bit.test_product_overflow = true /\
  test_16_bit.test_product = true /\
  test_16_bit.test_overflow_sum = true /\
  test_16_bit.test_sum = true.
Proof.
  unfold test_16_bit.add, test_16_bit.multiply. rewrite calculator_modulus.
  unfold test_16_bit.MAX_VALUE. change (2 ^ 16 - 1) with 65535.
  rewrite !Z.add_0_r, Z.add_0_l.
  split. { apply Zplus_mod_idemp_l. }
  split. { apply Zmult_mod_idemp_l. }
  split.
  { replace (a + 65536 + b) with (a + b + 1 * 65536) by lia.
    apply Z_mod_plus_full. }
  assert ((65535 * a) mod 65536 = (- a) mod 65536) as E.
  { replace (65535 * a) with (- a + a * 65536) by lia.
    apply Z_mod_plus_full. }
  split; [ exact E | ]. split.
  { rewrite E, Zplus_mod_idemp_r.
    replace (a + - a) with 0 by lia. reflexivity. }
  repeat split.
Qed.

(** X6.  [Shape] and [Polygon] keep abstract methods and cannot be
    instantiated: constructing one raises [TypeError] whatever the
    arguments.  [Circle], [Rectangle] and [Triangle] have no abstract
    method left: every method declared by a class they derive from
    resolves, on them, to a definition that is not abstract; so their
    construction runs their own [__init__]. *)
Theorem abstract_classes_are_not_instantiable :
  (forall args, construct Shape_class args = Raise TypeError) /\
  (forall args, construct Polygon_class args = Raise TypeError) /\
  (forall cls, abstractmethods (class_of cls) = []) /\
  (forall cls k d,
     subclass (class_of cls) k = true -> In d (namespace k) ->
     exists d', type_lookup (class_of cls) (md_name d) = Some d' /\
                md_abstract d' = false) /\
  (forall radius, construct Circle_class [radius] = Circle.new radius) /\
  (forall width height,
     construct Rectangle_class [width; height] = Rectangle.new width height) /\
  (forall a b c, construct Triangle_class [a; b; c] = Triangle.new a b c).
Proof.
  split; [ reflexivity | ]. split; [ reflexivity | ].
  split; [ intros []; reflexivity | ].
  split; [ | repeat split ].
  intros cls k d Hsub Hin.
  destruct cls, k; try discriminate Hsub;
    cbn [namespace In] in Hin;
    repeat match type of Hin with
    | _ \/ _ => destruct Hin as [<- | Hin]
    | False => destruct Hin
    end;
    (eexists; split; [ reflexivity | reflexivity ]).
Qed.

(** X7.  On an instance none of whose attributes hides a method, a call
    by name resolves along the class hierarchy to the override of the
    instance's own class: [area] and [perimeter] exist on every shape,
    [edge_count] and [vertex_count] on the polygons only, so that asking
    a circle for one is an [AttributeError]; [diameter] exists on circles
    only and [is_square] on rectangles only. *)
Theorem method_resolution (self : object) (H : unshadowed self) :
  invoke "area" self = Shape.area self /\
  invoke "perimeter" self = Shape.perimeter self /\
  invoke "edge_count" self = Polygon.edge_count self /\
  invoke "vertex_count" self = Polygon.vertex_count self /\
  invoke "diameter" self =
    match ob_type self with
    | Circle_cls => Circle.diameter self
    | _ => throw AttributeError self
    end /\
  invoke "is_square" self =
    match ob_type self with
    | Rectangle_cls => Rectangle.is_square self
    | _ => throw AttributeError self
    end.
Proof.
  unfold invoke.
  rewrite !H by (cbn [In]; tauto).
  unfold Shape.area, Shape.perimeter, Polygon.edge_count, Polygon.vertex_count.
  destruct (ob_type self); repeat split.
Qed.

Lemma method_resolution_witness :
  exists self,
    Rectangle.new (VInt 10) (VInt 4) = Ok self /\
    unshadowed self /\
    invoke "area" self = Shape.area self.
Proof.
  eexists. split; [ apply Rectangle_new_dict | ].
  assert (unshadowed (Object Rectangle_cls
    (<["height" := VInt 4]> (<["width" := VInt 10]> ∅)))) as H
    by exact (Rectangle_new_unshadowed _ _ _ (Rectangle_new_dict _ _)).
  split; [ exact H | ].
  exact (proj1 (method_resolution _ H)).
Defined.

(** X8.  Swapping width and height changes neither the area nor the
    answer of [is_square], whatever the two values are; it does not
    change the perimeter when both are numbers.  For strings it does:
    the perimeter of [Rectangle("a", "b")] is ["abab"], that of
    [Rectangle("b", "a")] is ["baba"]. *)
Theorem Rectangle_transposed (w h : value) :
  on_new (Rectangle.new h w) Rectangle.area =
    on_new (Rectangle.new w h) Rectangle.area /\
  on_new (Rectangle.new h w) Rectangle.is_square =
    on_new (Rectangle.new w h) Rectangle.is_square /\
  (is_number w = true -> is_number h = true ->
   on_new (Rectangle.new h w) Rectangle.perimeter =
     on_new (Rectangle.new w h) Rectangle.perimeter) /\
  on_new (Rectangle.new (VStr "a") (VStr "b")) Rectangle.perimeter =
    Ok (VStr "abab") /\
  on_new (Rectangle.new (VStr "b") (VStr "a")) Rectangle.perimeter =
    Ok (VStr "baba").
Proof.
  destruct (Rectangle_new_attrs w h) as (r & -> & _ & Hw & Hh).
  destruct (Rectangle_new_attrs h w) as (r' & -> & _ & Hh' & Hw').
  cbn [on_new].
  rewrite (Rectangle_area_of_sides _ _ _ Hw Hh),
    (Rectangle_area_of_sides _ _ _ Hh' Hw').
  rewrite (Rectangle_is_square_of_sides _ _ _ Hw Hh),
    (Rectangle_is_square_of_sides _ _ _ Hh' Hw').
  rewrite (Rectangle_perimeter_of_sides _ _ _ Hw Hh),
    (Rectangle_perimeter_of_sides _ _ _ Hh' Hw').
  split; [ apply py_mul_comm | ].
  split; [ now rewrite py_eq_sym | ].
  split; [ | split; vm_compute; reflexivity ].
  intros Nw Nh. now rewrite (py_add_comm h w Nh Nw).
Qed.



(** X10.  For a radius that is an [int], a [bool] or a [float],
    [Circle.area] either raises [OverflowError] (an int too large for a
    double) or returns a float that is never negative: a NaN exactly when
    the radius is a NaN, and otherwise a double with its sign bit clear,
    whatever the sign of the radius. *)
Theorem Circle_area_not_negative (r : value)
    (Hr : isinstance r [int_t; float_t] = true) :
  on_new (Circle.new r) Circle.area = Raise OverflowError \/
  exists x,
    on_new (Circle.new r) Circle.area = Ok (VFloat x) /\
    if has_nan r then x = S754_nan else sign_is false x.
Proof.
  assert (is_number r = true) as Nr by (now destruct r).
  destruct (on_new_Circle r Circle.area Nr) as (c & Hc & Hrad & ->).
  rewrite (Circle_area_of_radius _ _ Hrad).
  assert (forall n, has_nan r = false -> as_num r = Some (NInt n) ->
    result_bind (py_mul math.pi r) (fun t => py_mul t r) =
      Raise OverflowError \/
    exists x,
      result_bind (py_mul math.pi r) (fun t => py_mul t r) = Ok (VFloat x) /\
      sign_is false x) as Hint.
  { intros n Hnan Hnum.
    assert (forall t, py_mul (VFloat t) r =
              match float_of_int n with
              | Ok f => Ok (VFloat (F64.mul t f))
              | Raise e => Raise e
              end) as Hm.
    { intros t. unfold py_mul. rewrite Hnum.
      cbn [as_num num_binop to_float result_bind].
      now destruct (float_of_int n). }
    unfold math.pi. rewrite Hm.
    destruct (float_of_int n) as [f | e] eqn:Ef; cbn [result_bind].
    - right. rewrite Hm. eexists. split; [ reflexivity | ].
      apply F64_square_sign; [ | unfold F64.pi; eauto ].
      exact (float_of_int_not_nan _ _ Ef).
    - left. destruct (float_of_int_outcome n) as [E | E]; congruence. }
  destruct r as [ | b | n | f | re im | s]; try discriminate Hr.
  - destruct (Hint (Z.b2z b) eq_refl eq_refl) as [H | (x & H & Hs)]; eauto.
  - destruct (Hint n eq_refl eq_refl) as [H | (x & H & Hs)]; eauto.
  - right. unfold py_mul, math.pi.
    cbn [as_num num_binop to_float result_bind has_nan].
    eexists. split; [ reflexivity | ].
    destruct f as [s | s | | s m e]; cbn [F64.is_nan];
      try (apply F64_square_sign; [ discriminate | unfold F64.pi; eauto ]).
    reflexivity.
Qed.

Lemma Circle_area_not_negative_witness :
  on_new (Circle.new (VInt (-3))) Circle.area = Raise OverflowError \/
  exists x,
    on_new (Circle.new (VInt (-3))) Circle.area = Ok (VFloat x) /\
    sign_is false x.
Proof. exact (Circle_area_not_negative (VInt (-3)) eq_refl). Defined.


(** X12.  For int sides that are not negative and whose sum is below
    [2 ^ 53], [Triangle.area] returns a float above zero exactly when the
    sides satisfy the strict triangle inequality: a proper triangle never
    has area zero, and nothing else has a positive area. *)
Theorem Triangle_area_positive (a b c : Z)
    (Ha : 0 <= a) (Hb : 0 <= b) (Hc : 0 <= c) (Hs : a + b + c < 2 ^ 53) :
  (exists x,
     on_new (Triangle.new (VInt a) (VInt b) (VInt c)) Triangle.area =
       Ok (VFloat x) /\
     F64.ltb F64.zero x = true) <->
  strict_triangle_inequality a b c.
Proof.
  destruct (Triangle_new_attrs (VInt a) (VInt b) (VInt c))
    as (t & -> & _ & Ga & Gb & Gc).
  cbn [on_new]. rewrite (Triangle_area_of_sides _ _ _ _ Ga Gb Gc).
  destruct (heron_radicand_int a b c Ha Hb Hc Hs) as (x & Hx & Hr & Hsg).
  destruct (heron_int a b c Ha Hb Hc Hs) as (Hneg & _ & Hzero).
  unfold strict_triangle_inequality.
  split.
  - intros (y & Hy & Hpos).
    destruct (Z.lt_trichotomy a (b + c)) as [H1 | [H1 | H1]];
    destruct (Z.lt_trichotomy b (a + c)) as [H2 | [H2 | H2]];
    destruct (Z.lt_trichotomy c (a + b)) as [H3 | [H3 | H3]];
    try (repeat split; assumption);
    try (exfalso;
         assert (~ triangle_inequality a b c) as Hn
           by (unfold triangle_inequality; lia);
         apply Hneg in Hn; congruence);
    exfalso;
    assert (on_boundary a b c) as Hbd by (unfold on_boundary; lia);
    destruct (Hzero Hbd) as (s & _ & Hz);
    rewrite Hz in Hy; injection Hy as <-; discriminate Hpos.
  - intros (H1 & H2 & H3).
    assert (fsign x = 1) as Hone.
    { rewrite Hsg. rewrite !Z.sgn_pos by lia. reflexivity. }
    unfold heron_formula. rewrite Hx. cbn [result_bind].
    rewrite math_sqrt_float.
    destruct x as [s | s | | s m e]; cbn [in_range] in Hr; try contradiction;
      cbn [fsign] in Hone; try discriminate.
    destruct s; [ discriminate | ].
    change (F64.ltb (S754_finite false m e) F64.zero) with false. cbn iota.
    eexists. split; [ reflexivity | ].
    apply F64_sqrt_positive. lia.
Qed.

Lemma Triangle_area_positive_witness :
  exists x,
    on_new (Triangle.new (VInt 3) (VInt 4) (VInt 5)) Triangle.area =
      Ok (VFloat x) /\
    F64.ltb F64.zero x = true.
Proof.
  apply (Triangle_area_positive 3 4 5); try lia.
  unfold strict_triangle_inequality. lia.
Defined.



(** X14.  [Rectangle] and [Triangle] do not validate their sides, unlike
    [Circle], which rejects a string with [ValueError].  With string
    sides a triangle's perimeter is their concatenation and its area
    raises [TypeError]; a rectangle's area raises [TypeError] and
    [is_square] compares the two strings; a rectangle of a string and an
    int has the repeated string as its area and a [TypeError] as its
    perimeter. *)
Theorem unvalidated_string_sides (s t u : string) :
  on_new (Triangle.new (VStr s) (VStr t) (VStr u)) Triangle.perimeter =
    Ok (VStr (String.append (String.append s t) u)) /\
  on_new (Triangle.new (VStr s) (VStr t) (VStr u)) Triangle.area =
    Raise TypeError /\
  on_new (Rectangle.new (VStr s) (VStr t)) Rectangle.area = Raise TypeError /\
  on_new (Rectangle.new (VStr s) (VStr t)) Rectangle.is_square =
    Ok (VBool (String.eqb s t)) /\
  (forall n, on_new (Rectangle.new (VStr s) (VInt n)) Rectangle.area =
             str_repeat s n) /\
  (forall n, on_new (Rectangle.new (VStr s) (VInt n)) Rectangle.perimeter =
             Raise TypeError) /\
  Circle.new (VStr s) = Raise ValueError.
Proof.
  destruct (Triangle_new_attrs (VStr s) (VStr t) (VStr u))
    as (tr & -> & _ & Ga & Gb & Gc).
  destruct (Rectangle_new_attrs (VStr s) (VStr t)) as (r & -> & _ & Gw & Gh).
  cbn [on_new].
  rewrite (Triangle_perimeter_of_sides _ _ _ _ Ga Gb Gc),
    (Triangle_area_of_sides _ _ _ _ Ga Gb Gc),
    (Rectangle_area_of_sides _ _ _ Gw Gh),
    (Rectangle_is_square_of_sides _ _ _ Gw Gh).
  repeat split.
Qed.


(** X16.  The tests of [test_rectangle.py], run against the rectangle of
    any two values: [test_edge_count] and [test_vertex_count] pass;
    [test_perimeter] and [test_area] end as the comparison of the
    expression they recompute with itself, so they fail only on a result
    that holds a NaN and are in error exactly when that expression
    raises; for int sides, those of the fixture among them, both pass.
    [test_is_square], which builds its own rectangles, passes. *)
Theorem test_rectangle_verdicts (w h : value) :
  run_test (Rectangle.new w h) test_rectangle.test_edge_count = Passed /\
  run_test (Rectangle.new w h) test_rectangle.test_vertex_count = Passed /\
  run_test (Rectangle.new w h) test_rectangle.test_perimeter =
    assertion (t <- py_add w h ;; py_mul (VInt 2) t)%result /\
  run_test (Rectangle.new w h) test_rectangle.test_area =
    assertion (py_mul w h) /\
  run_test (Rectangle.new w h) test_rectangle.test_is_square = Passed /\
  (forall m n, w = VInt m -> h = VInt n ->
     run_test (Rectangle.new w h) test_rectangle.test_perimeter = Passed /\
     run_test (Rectangle.new w h) test_rectangle.test_area = Passed).
Proof.
  destruct (Rectangle_new_attrs w h) as (self & Hnew & Hty & Hw & Hh).
  pose proof (Rectangle_new_unshadowed _ _ _ Hnew) as Hun.
  destruct type_lookup_Rectangle as (La & Lp & Le & Lv).
  rewrite Hnew, !run_test_Ok.
  assert (verdict_of (call test_rectangle.test_perimeter self) =
            assertion (t <- py_add w h ;; py_mul (VInt 2) t)%result) as Ep.
  { unfold test_rectangle.test_perimeter.
    rewrite (call_getattr _ _ _ _ Hw), (call_getattr _ _ _ _ Hh), call_eval.
    destruct (py_add w h) as [t | e] eqn:Et; [ | reflexivity ].
    rewrite call_eval. cbn [result_bind].
    destruct (py_mul (VInt 2) t) as [v | e] eqn:Ev; [ | reflexivity ].
    resolve_invoke "perimeter" Hun Hty Lp.
    rewrite (Rectangle_perimeter_of_sides _ _ _ Hw Hh), Et.
    cbn [result_bind]. rewrite Ev. apply verdict_self. }
  assert (verdict_of (call test_rectangle.test_area self) =
            assertion (py_mul w h)) as Ea.
  { unfold test_rectangle.test_area.
    resolve_invoke "area" Hun Hty La.
    rewrite (Rectangle_area_of_sides _ _ _ Hw Hh).
    destruct (py_mul w h) as [v | e] eqn:Ev; [ | reflexivity ].
    rewrite (call_getattr _ _ _ _ Hw), (call_getattr _ _ _ _ Hh), call_eval, Ev.
    apply verdict_self. }
  split.
  { unfold test_rectangle.test_edge_count.
    resolve_invoke "edge_count" Hun Hty Le. reflexivity. }
  split.
  { unfold test_rectangle.test_vertex_count.
    resolve_invoke "vertex_count" Hun Hty Lv. reflexivity. }
  split; [ exact Ep | ]. split; [ exact Ea | ].
  split; [ vm_compute; reflexivity | ].
  intros m n -> ->. rewrite Ep, Ea. split; reflexivity.
Qed.

(** X17.  The tests of [test_triangle.py] that stay within the modelled
    arithmetic, run against the triangle of any three values:
    [test_edge_count] and [test_vertex_count] pass; [test_perimeter] ends
    as the comparison of [side_a + side_b + side_c] with itself, so it
    fails only on a result that holds a NaN and is in error exactly when
    that sum raises; for int sides, those of the fixture among them, it
    passes. *)
Theorem test_triangle_verdicts (a b c : value) :
  run_test (Triangle.new a b c) test_triangle.test_edge_count = Passed /\
  run_test (Triangle.new a b c) test_triangle.test_vertex_count = Passed /\
  run_test (Triangle.new a b c) test_triangle.test_perimeter =
    assertion (side_sum a b c) /\
  (forall l m n, a = VInt l -> b = VInt m -> c = VInt n ->
     run_test (Triangle.new a b c) test_triangle.test_perimeter = Passed).
Proof.
  destruct (Triangle_new_attrs a b c) as (self & Hnew & Hty & Ha & Hb & Hc).
  pose proof (Triangle_new_unshadowed _ _ _ _ Hnew) as Hun.
  destruct type_lookup_Triangle as (La & Lp & Le & Lv).
  rewrite Hnew, !run_test_Ok.
  assert (verdict_of (call test_triangle.test_perimeter self) =
            assertion (side_sum a b c)) as Ep.
  { unfold test_triangle.test_perimeter.
    resolve_invoke "perimeter" Hun Hty Lp.
    rewrite (Triangle_perimeter_of_sides _ _ _ _ Ha Hb Hc).
    unfold side_sum.
    destruct (py_add a b) as [ab | e] eqn:Eab; [ | reflexivity ].
    cbn [result_bind].
    destruct (py_add ab c) as [v | e] eqn:Ev; [ | reflexivity ].
    rewrite (call_getattr _ _ _ _ Ha), (call_getattr _ _ _ _ Hb), call_eval, Eab.
    rewrite (call_getattr _ _ _ _ Hc), call_eval, Ev.
    apply verdict_self. }
  split.
  { unfold test_triangle.test_edge_count.
    resolve_invoke "edge_count" Hun Hty Le. reflexivity. }
  split.
  { unfold test_triangle.test_vertex_count.
    resolve_invoke "vertex_count" Hun Hty Lv. reflexivity. }
  split; [ exact Ep | ].
  intros l m n -> -> ->. rewrite Ep. reflexivity.
Qed.

(** X18.  The four tests of [test_circle.py] pass on the circle of
    radius 7 that the module builds.  [test_diameter] and [test_radius]
    compare with the literals 14 and 7, so on the circle of another int
    [RADIUS] they do not pass.  [test_area] compares with
    [math.pi * RADIUS ** 2], which is rounded once where [area()] rounds
    twice: the two agree at 7 and differ at 11, where the test fails. *)
Theorem test_circle_verdicts :
  run_test test_circle.circle test_circle.test_diameter = Passed /\
  run_test test_circle.circle test_circle.test_radius = Passed /\
  run_test test_circle.circle test_circle.test_perimeter = Passed /\
  run_test test_circle.circle test_circle.test_area = Passed /\
  (forall R,
     run_test (test_circle.circle_of R) test_circle.test_diameter = Passed
     <-> R = 7) /\
  (forall R,
     run_test (test_circle.circle_of R) test_circle.test_radius = Passed
     <-> R = 7) /\
  run_test (test_circle.circle_of 11) (test_circle.test_area_of 11) = Failed.
Proof.
  split; [ vm_compute; reflexivity | ].
  split; [ vm_compute; reflexivity | ].
  split; [ vm_compute; reflexivity | ].
  split; [ vm_compute; reflexivity | ].
  assert (forall R, exists self,
            test_circle.circle_of R = Ok self /\ ob_type self = Circle_cls /\
            ob_dict self !! "radius" = Some (VInt R) /\ unshadowed self) as Hc.
  { intros R.
    destruct (Circle_new_attrs (VInt R) eq_refl) as (self & H1 & H2 & H3).
    exists self. repeat split; try assumption.
    exact (Circle_new_unshadowed _ _ H1). }
  destruct type_lookup_Circle as (La & Lp & Ld).
  split.
  { intros R. destruct (Hc R) as (self & -> & Hty & Hr & Hun).
    rewrite run_test_Ok. unfold test_circle.test_diameter.
    resolve_invoke "diameter" Hun Hty Ld.
    rewrite (Circle_diameter_of_radius _ _ Hr).
    change (verdict_of (Ok (2 * R =? 14)) = Passed <-> R = 7).
    cbn [verdict_of].
    destruct (2 * R =? 14) eqn:E;
      [ apply Z.eqb_eq in E | apply Z.eqb_neq in E ];
      split; intros; (lia || discriminate || reflexivity). }
  split.
  { intros R. destruct (Hc R) as (self & -> & Hty & Hr & Hun).
    rewrite run_test_Ok. unfold test_circle.test_radius.
    rewrite (call_getattr _ _ _ _ Hr).
    change (verdict_of (Ok (R =? 7)) = Passed <-> R = 7).
    cbn [verdict_of].
    destruct (R =? 7) eqn:E;
      [ apply Z.eqb_eq in E | apply Z.eqb_neq in E ];
      split; intros; (lia || discriminate || reflexivity). }
  vm_compute. reflexivity.
Qed.

(** X19.  [pytest_configure] of the shapes' [conftest.py] appends its four
    marker lines, in the order of the source, to whatever the [markers]
    value already holds, and leaves every other value of the
    configuration alone.  No marker registered before is lost, and every
    marker carried by a test of [test_rectangle.py] or [test_triangle.py]
    is registered afterwards. *)
Theorem shapes_markers_registered (cfg : gmap string (list string)) :
  getini "markers" (shapes_conftest.pytest_configure cfg) =
    getini "markers" cfg ++
    [ "group_polygon: marks tests related to polygon functionality";
      "group_shape: marks tests related to shape functionality";
      "group_circle: marks tests related to circle functionality";
      "group_rectangle: marks tests related to rectangle functionality" ] /\
  (forall name, name <> "markers" ->
     shapes_conftest.pytest_configure cfg !! name = cfg !! name) /\
  (forall marker, registered cfg marker = true ->
     registered (shapes_conftest.pytest_configure cfg) marker = true) /\
  Forall (fun t => registered (shapes_conftest.pytest_configure cfg) t.2 = true)
         (test_rectangle.marks ++ test_triangle.marks).
Proof.
  match goal with |- ?G /\ _ => assert G as Hm end.
  { unfold shapes_conftest.pytest_configure.
    rewrite !getini_addinivalue_line, <- !app_assoc. reflexivity. }
  split; [ exact Hm | ]. split.
  { intros name Hn. unfold shapes_conftest.pytest_configure.
    now rewrite !addinivalue_line_other by exact Hn. }
  split.
  { intros marker H. rewrite (registered_app _ _ _ _ Hm), H. reflexivity. }
  unfold test_rectangle.marks, test_triangle.marks. cbn [app].
  repeat (constructor;
          [ rewrite (registered_app _ _ _ _ Hm); apply orb_true_iff; right;
            vm_compute; reflexivity | ]).
  constructor.
Qed.

(** X20.  [pytest_configure] of the calculator's [conftest.py] appends
    its two marker lines, in the order of the source, to whatever the
    [markers] value already holds, and leaves every other value of the
    configuration alone.  No marker registered before is lost, and every
    marker carried by a test of [test_16_bit.py] is registered
    afterwards. *)
Theorem calculator_markers_registered (cfg : gmap string (list string)) :
  getini "markers" (calculator_conftest.pytest_configure cfg) =
    getini "markers" cfg ++
    [ "group_add: Addition tests"; "group_multiply: Multiplication tests" ] /\
  (forall name, name <> "markers" ->
     calculator_conftest.pytest_configure cfg !! name = cfg !! name) /\
  (forall marker, registered cfg marker = true ->
     registered (calculator_conftest.pytest_configure cfg) marker = true) /\
  Forall (fun t =>
            registered (calculator_conftest.pytest_configure cfg) t.2 = true)
         test_16_bit.marks.
Proof.
  match goal with |- ?G /\ _ => assert G as Hm end.
  { unfold calculator_conftest.pytest_configure.
    rewrite !getini_addinivalue_line, <- !app_assoc. reflexivity. }
  split; [ exact Hm | ]. split.
  { intros name Hn. unfold calculator_conftest.pytest_configure.
    now rewrite !addinivalue_line_other by exact Hn. }
  split.
  { intros marker H. rewrite (registered_app _ _ _ _ Hm), H. reflexivity. }
  unfold test_16_bit.marks.
  repeat (constructor;
          [ rewrite (registered_app _ _ _ _ Hm); apply orb_true_iff; right;
            vm_compute; reflexivity | ]).
  constructor.
Qed.
